(** * ESR: tunneling-junction current-density models and their fitting

    A shallow embedding of [esr/models.py] and [esr/fitting.py].

    - Numbers are IEEE-754 binary64 values ([PrimFloat.float]), the
      [float64] of NumPy and the [float] of Python, with their rounding,
      overflow, signed zeros and NaN.
    - A NumPy array is a mutable object: arrays live in a store and are
      named by their location; every NumPy operator of the source
      allocates its result.
    - [np.exp] and [scipy.optimize.curve_fit] are library code outside the
      repository; they are parameters of the development.  What
      [curve_fit] does with [maxfev] is the loop of an iterative method
      whose numerical content is left open ([Solver]). *)

From Stdlib Require Import ZArith List Bool Lia Floats.
From Stdlib Require String DecimalString.
Import ListNotations.

#[local] Set Warnings "-inexact-float".

(** ** Python exceptions, outcomes and the array store *)

Module Py.

Import String.StringSyntax.
Local Open Scope string_scope.

(** An exception is identified by the name of its class. *)
Definition exn := String.string.

Definition ValueError : exn := "ValueError".
Definition TypeError : exn := "TypeError".
Definition RuntimeError : exn := "RuntimeError".
Definition NameError : exn := "NameError".

Local Close Scope string_scope.

Inductive outcome (A : Type) : Type :=
| Ok (a : A)
| Raise (e : exn).
Arguments Ok {A} a.
Arguments Raise {A} e.

(** One-dimensional [float64] arrays, the store that holds them, and the
    locations that name them. *)
Definition ndarray := list float.
Definition loc := nat.
Definition heap := list ndarray.

(** Computations that read and extend the store and may raise. *)
Definition M (A : Type) : Type := heap -> outcome A * heap.

Definition ret {A} (a : A) : M A := fun h => (Ok a, h).

Definition raise {A} (e : exn) : M A := fun h => (Raise e, h).

Definition bind {A B} (c : M A) (k : A -> M B) : M B :=
  fun h => match c h with
           | (Ok a, h') => k a h'
           | (Raise e, h') => (Raise e, h')
           end.

(** The array a name is bound to; a location outside the store is a name
    bound to nothing. *)
Definition get (l : loc) : M ndarray :=
  fun h => match nth_error h l with
           | Some a => (Ok a, h)
           | None => (Raise NameError, h)
           end.

(** A fresh array object. *)
Definition new_array (a : ndarray) : M loc :=
  fun h => (Ok (length h), h ++ [a]).

(** A function [def f(V, p1, ..., pn)] as an object: called as
    [f(V, *params)] with another number of parameters than [n] it raises
    [TypeError] before its body runs. *)
Record pyfunc : Type := {
  nparams : nat;
  body : loc -> list float -> M loc
}.

Definition call (f : pyfunc) (V : loc) (params : list float) : M loc :=
  if Nat.eqb (length params) (nparams f)
  then body f V params
  else raise TypeError.

End Py.
Import Py.

Declare Scope py_scope.
Delimit Scope py_scope with py.
Notation "x <- c ;; k" := (bind c (fun x => k))
  (at level 100, c at next level, right associativity) : py_scope.

(** ** The NumPy operations the source uses *)

Module Np.

(** [np.maximum] on two doubles: a NaN operand is the result, the larger
    operand otherwise, and the second operand when they compare equal, so
    that [np.maximum(-0.0, 0)] is [0.0]. *)
Definition np_maximum (a b : float) : float :=
  if (PrimFloat.ltb b a || is_nan a)%bool then a else b.

(** Shapes [(n,)] and [(m,)] broadcast when [n = m], [n = 1] or [m = 1]. *)
Definition broadcast2 (f : float -> float -> float) (xs ys : ndarray)
  : option ndarray :=
  if Nat.eqb (length xs) (length ys)
  then Some (map (fun p => f (fst p) (snd p)) (combine xs ys))
  else match xs, ys with
       | [x], _ => Some (map (f x) ys)
       | _, [y] => Some (map (fun x => f x y) xs)
       | _, _ => None
       end.

(** An element-wise operation of one array (an array and a scalar
    included): a new array, the operand untouched. *)
Definition ufunc1 (f : float -> float) (a : loc) : M loc :=
  (xs <- get a ;; new_array (map f xs))%py.

(** An element-wise operation of two arrays. *)
Definition ufunc2 (f : float -> float -> float) (a b : loc) : M loc :=
  (xs <- get a ;;
   ys <- get b ;;
   match broadcast2 f xs ys with
   | Some zs => new_array zs
   | None => raise ValueError
   end)%py.

End Np.
Import Np.

(** ** [esr/models.py] *)

Module Models.
Section WithExp.

(** [np.exp] on a double. *)
Variable np_exp : float -> float.

Local Open Scope float_scope.

Definition simmons_current_density
  (V : loc) (barrier_height barrier_thickness : float) : M loc :=
  let A := 1e5 in
  let B := 10.0 in
  (half <- ufunc1 (fun v => v / 2.0) V ;;
   diff <- ufunc1 (fun x => barrier_height - x) half ;;
   effective <- ufunc1 (fun x => np_maximum x 0) diff ;;
   av <- ufunc1 (fun v => A * v) V ;;
   root <- ufunc1 sqrt effective ;;
   arg <- ufunc1 (fun r => - B * barrier_thickness * r) root ;;
   ex <- ufunc1 np_exp arg ;;
   ufunc2 mul av ex)%py.

Definition bdr_current_density
  (V : loc) (avg_barrier_height barrier_thickness asymmetry : float) : M loc :=
  let A := 1e5 in
  let B := 10.0 in
  (skew <- ufunc1 (fun v => asymmetry * v) V ;;
   total <- ufunc1 (fun x => avg_barrier_height + x) skew ;;
   effective <- ufunc1 (fun x => np_maximum x 0) total ;;
   av <- ufunc1 (fun v => A * v) V ;;
   root <- ufunc1 sqrt effective ;;
   arg <- ufunc1 (fun r => - B * barrier_thickness * r) root ;;
   ex <- ufunc1 np_exp arg ;;
   ufunc2 mul av ex)%py.

(** The documented formulas, one voltage sample at a time. *)
Definition simmons_effective (h v : float) : float := np_maximum (h - v / 2) 0.

Definition bdr_effective (h a v : float) : float := np_maximum (h + a * v) 0.

Definition exp_factor (s effective : float) : float :=
  np_exp (- 10.0 * s * sqrt effective).

Definition simmons_formula (h s v : float) : float :=
  1e5 * v * exp_factor s (simmons_effective h v).

Definition bdr_formula (h s a v : float) : float :=
  1e5 * v * exp_factor s (bdr_effective h a v).

(** The two functions as the objects [fitting.py] hands to the optimizer. *)
Definition simmons_model : pyfunc :=
  {| nparams := 2;
     body := fun V params =>
               match params with
               | [barrier_height; barrier_thickness] =>
                   simmons_current_density V barrier_height barrier_thickness
               | _ => raise TypeError
               end |}.

Definition bdr_model : pyfunc :=
  {| nparams := 3;
     body := fun V params =>
               match params with
               | [avg_barrier_height; barrier_thickness; asymmetry] =>
                   bdr_current_density V avg_barrier_height barrier_thickness
                                       asymmetry
               | _ => raise TypeError
               end |}.

End WithExp.
End Models.
Import Models.

(** ** [esr/fitting.py] *)

Module Fitting.

Definition matrix := list (list float).

(** What [curve_fit] returns: [(popt, pcov)]. *)
Definition fit_result : Type := ndarray * matrix.

(** One call [curve_fit(f, xdata, ydata, p0=p0, maxfev=maxfev)]. *)
Record fit_call : Type := {
  fc_f : pyfunc;
  fc_xdata : loc;
  fc_ydata : loc;
  fc_p0 : list float;
  fc_maxfev : Z
}.

(** [scipy.optimize.curve_fit]: it may evaluate [f], allocate arrays,
    return a result or raise. *)
Definition optimizer : Type := fit_call -> M fit_result.

(** The code of [fitting.py] over the optimizer it calls. *)
Inductive prog (A : Type) : Type :=
| Return (a : A)
| CurveFit (c : fit_call) (k : fit_result -> prog A).
Arguments Return {A} a.
Arguments CurveFit {A} c k.

Definition fit_model (V J : loc) (model : pyfunc) (p0 : list float)
  : prog fit_result :=
  CurveFit {| fc_f := model; fc_xdata := V; fc_ydata := J;
              fc_p0 := p0; fc_maxfev := 20000 |}
           (fun r => let '(popt, pcov) := r in Return (popt, pcov)).

Section WithExp.

Variable np_exp : float -> float.

Definition fit_simmons (V J : loc) : prog fit_result :=
  let p0 := [1.0; 1.0]%float in
  fit_model V J (simmons_model np_exp) p0.

Definition fit_bdr (V J : loc) : prog fit_result :=
  let p0 := [1.0; 1.0; 0.0]%float in
  fit_model V J (bdr_model np_exp) p0.

End WithExp.

(** Running the code against an optimizer: the outcome, the final store
    and the optimizer calls made, in order.  An exception of the optimizer
    is not caught. *)
Fixpoint run {A} (curve_fit : optimizer) (p : prog A) (h : heap)
  : outcome A * heap * list fit_call :=
  match p with
  | Return a => (Ok a, h, [])
  | CurveFit c k =>
      match curve_fit c h with
      | (Ok r, h') =>
          let '(o, h'', calls) := run curve_fit (k r) h' in
          (o, h'', c :: calls)
      | (Raise e, h') => (Raise e, h', [c])
      end
  end.

Definition outcome_of {A} (x : outcome A * heap * list fit_call) : outcome A :=
  fst (fst x).

Definition heap_of {A} (x : outcome A * heap * list fit_call) : heap :=
  snd (fst x).

Definition calls_of {A} (x : outcome A * heap * list fit_call)
  : list fit_call :=
  snd x.

(** Every entry of [popt] and of [pcov] is a finite number. *)
Definition all_finite (r : fit_result) : bool :=
  forallb is_finite (fst r) && forallb (forallb is_finite) (snd r).

(** An optimizer that stops where it starts: one evaluation of the model
    at [p0], then [popt = p0] and a covariance filled with [inf], the way
    [curve_fit] answers when the Jacobian at the solution is singular. *)
Definition degenerate_fit : optimizer :=
  fun c =>
    let n := length (fc_p0 c) in
    (_ <- call (fc_f c) (fc_xdata c) (fc_p0 c) ;;
     ret (fc_p0 c, repeat (repeat infinity n) n))%py.

(** An optimizer that gives up: one evaluation of the model at [p0], then
    [RuntimeError], the way [curve_fit] answers when [maxfev] evaluations
    did not suffice. *)
Definition exhausted_fit : optimizer :=
  fun c =>
    (_ <- call (fc_f c) (fc_xdata c) (fc_p0 c) ;;
     raise RuntimeError)%py.

End Fitting.
Import Fitting.

(** ** What [np.exp] is assumed to do, and a function that does it *)

Module Exp.

Local Open Scope float_scope.

(** The special values of [exp] (IEEE 754, C Annex F). *)
Record special_values (np_exp : float -> float) : Prop := {
  exp_nan : np_exp nan = nan;
  exp_zero : np_exp 0 = 1;
  exp_neg_zero : np_exp (-0) = 1;
  exp_infinity : np_exp infinity = infinity;
  exp_neg_infinity : np_exp neg_infinity = 0
}.

(** [1 + r/k (1 + r/(k+1) (1 + ...))], [n] terms. *)
Fixpoint exp_horner (n : nat) (k r : float) : float :=
  match n with
  | O => 1
  | S n' => 1 + r / k * exp_horner n' (k + 1) r
  end.

Fixpoint square_n (n : nat) (y : float) : float :=
  match n with
  | O => y
  | S n' => square_n n' (y * y)
  end.

(** An exponential by scaling and squaring: [exp x = (exp (x/4096))^4096].
    It has the special values above; it is not [np.exp] bit for bit, and
    nothing of the source under study is read off it. *)
Definition exp_ref (x : float) : float :=
  if is_nan x then nan
  else if x <? -746 then 0
  else if 710 <? x then infinity
  else square_n 12 (exp_horner 14 1 (x / 4096)).

End Exp.
Import Exp.

(** ** Stores that only grow *)

Module Frame.

(** Every array of [h] is still there, unchanged, in [h']. *)
Definition preserves (h h' : heap) : Prop :=
  forall l a, nth_error h l = Some a -> nth_error h' l = Some a.

(** A computation that only allocates: the store it leaves is the store
    it found, followed by new arrays. *)
Definition grows {A} (c : M A) : Prop :=
  forall h, exists fresh, snd (c h) = h ++ fresh.

(** Run from [h], [c] returns a fresh array that holds [out], and every
    array of [h] is as it was. *)
Definition returns (c : M loc) (h : heap) (out : ndarray) : Prop :=
  exists r h',
    c h = (Ok r, h') /\ nth_error h' r = Some out /\
    nth_error h r = None /\ preserves h h'.

(** A function that writes to no array that existed when it was called. *)
Definition frame_safe (f : pyfunc) : Prop :=
  forall V params h, preserves h (snd (call f V params h)).

(** An optimizer that writes to no array that existed when it was called,
    as long as the model it evaluates does not. *)
Definition optimizer_frame_safe (curve_fit : optimizer) : Prop :=
  forall c h, frame_safe (fc_f c) -> preserves h (snd (curve_fit c h)).

End Frame.
Import Frame.

(** ** What [curve_fit] is assumed to do with [maxfev] *)

Module Solver.

(** An iterative least-squares method (Levenberg-Marquardt, trust-region
    reflective), by its loop: in an iteration it evaluates the model at
    one point or more, and from the values goes on to a next state or has
    converged to a result.  Where it starts, which points it chooses and
    when it has converged are left open. *)
Section Method.

Variable state : Type.

Record method : Type := {
  start : fit_call -> heap -> state;
  points : state -> list float * list (list float);
  update : state -> list ndarray -> state + fit_result
}.

Inductive status : Type :=
| Running (s : state)
| Converged (r : fit_result)
| Failed (e : exn).

(** The loop so far: the number of evaluations of the model, the store,
    and where the method stands. *)
Record progress : Type := {
  p_nfev : nat;
  p_store : heap;
  p_status : status
}.

(** The model at each point in turn, until an evaluation raises: the
    number of evaluations made, the values, and the store. *)
Fixpoint evaluate (f : pyfunc) (V : loc) (ps : list (list float)) (h : heap)
  : nat * outcome (list ndarray) * heap :=
  match ps with
  | [] => (0%nat, Ok [], h)
  | p :: ps' =>
      match (r <- call f V p ;; get r)%py h with
      | (Raise e, h') => (1%nat, Raise e, h')
      | (Ok ys, h') =>
          let '(n, o, h'') := evaluate f V ps' h' in
          (S n,
           match o with Ok l => Ok (ys :: l) | Raise e => Raise e end,
           h'')
      end
  end.

(** The limit on evaluations is reached; without a limit, never. *)
Definition reached (limit : option nat) (n : nat) : bool :=
  match limit with
  | Some l => Nat.leb l n
  | None => false
  end.

(** One iteration: the evaluations, then the result when the method has
    converged, and otherwise [RuntimeError] when the number of
    evaluations has reached the limit.  An exception of the model ends
    the loop. *)
Definition iteration (m : method) (limit : option nat) (c : fit_call)
           (p : progress) : progress :=
  match p_status p with
  | Running s =>
      let '(n, o, h') :=
        evaluate (fc_f c) (fc_xdata c)
                 (fst (points m s) :: snd (points m s)) (p_store p) in
      {| p_nfev := p_nfev p + n;
         p_store := h';
         p_status :=
           match o with
           | Raise e => Failed e
           | Ok values =>
               match update m s values with
               | inr r => Converged r
               | inl s' =>
                   if reached limit (p_nfev p + n)
                   then Failed RuntimeError
                   else Running s'
               end
           end |}
  | _ => p
  end.

(** The loop, for at most [fuel] iterations: where it has stopped, or
    nothing when it is still running. *)
Fixpoint solve (m : method) (limit : option nat) (c : fit_call)
         (fuel : nat) (p : progress) : option progress :=
  match p_status p with
  | Running _ =>
      match fuel with
      | O => None
      | S fuel' => solve m limit c fuel' (iteration m limit c p)
      end
  | _ => Some p
  end.

Definition begin (m : method) (c : fit_call) (h : heap) : progress :=
  {| p_nfev := 0; p_store := h; p_status := Running (start m c h) |}.

Definition finish (p : progress) : outcome fit_result :=
  match p_status p with
  | Converged r => Ok r
  | Failed e => Raise e
  | Running _ => Raise RuntimeError
  end.

(** [curve_fit] with the method [m]: the loop under the limit [maxfev],
    for as many iterations as the limit allows evaluations. *)
Definition iterative_fit (m : method) : optimizer :=
  fun c h =>
    let limit := Z.to_nat (fc_maxfev c) in
    match solve m (Some limit) c limit (begin m c h) with
    | Some p => (finish p, p_store p)
    | None => (Raise RuntimeError, h)
    end.

End Method.

Arguments start {state} m c h.
Arguments points {state} m s.
Arguments update {state} m s values.
Arguments Running {state} s.
Arguments Converged {state} r.
Arguments Failed {state} e.
Arguments p_nfev {state} p.
Arguments p_store {state} p.
Arguments p_status {state} p.
Arguments iteration {state} m limit c p.
Arguments solve {state} m limit c fuel p.
Arguments begin {state} m c h.
Arguments finish {state} p.
Arguments iterative_fit {state} m.

(** A method that never converges: it evaluates the model at the initial
    guess, again and again. *)
Definition restless : method (list float) :=
  {| start := fun c _ => fc_p0 c;
     points := fun s => (s, []);
     update := fun s _ => inl s |}.

End Solver.
Import Solver.

(** ** Sentences of the specification that the code is compared with *)

Module Spec.

Import String.StringSyntax.
Local Open Scope string_scope.

(** The error names of the specification; [fitting.py] defines no
    exception class. *)
Definition DimensionError : exn := "DimensionError".
Definition DataError : exn := "DataError".
Definition ConvergenceError : exn := "ConvergenceError".

Local Close Scope string_scope.

(** "fails with a DimensionError when len(V) != len(J) or when
    initial_guess length does not match the model's parameter arity",
    "reported immediately, fit not attempted". *)
Definition rejects_dimension_mismatch : Prop :=
  forall (curve_fit : optimizer) (h : heap) (V J : loc) (xs ys : ndarray)
         (model : pyfunc) (p0 : list float),
    nth_error h V = Some xs ->
    nth_error h J = Some ys ->
    length xs <> length ys \/ length p0 <> nparams model ->
    run curve_fit (fit_model V J model p0) h = (Raise DimensionError, h, []).

(** "fails with a DataError when fewer data points than free parameters
    are supplied", "reported immediately". *)
Definition rejects_underdetermined : Prop :=
  forall (curve_fit : optimizer) (h : heap) (V J : loc) (xs ys : ndarray)
         (model : pyfunc) (p0 : list float),
    nth_error h V = Some xs ->
    nth_error h J = Some ys ->
    length xs < nparams model ->
    run curve_fit (fit_model V J model p0) h = (Raise DataError, h, []).

(** "a distinguishable, reportable failure, not a silent NaN result":
    when the optimizer raises, or answers with an entry that is not a
    finite number, the fit ends in an exception (whatever its name). *)
Definition reports_nonconvergence : Prop :=
  forall (curve_fit : optimizer) (h : heap) (V J : loc)
         (model : pyfunc) (p0 : list float),
    match fst (curve_fit {| fc_f := model; fc_xdata := V; fc_ydata := J;
                            fc_p0 := p0; fc_maxfev := 20000 |} h) with
    | Raise _ => True
    | Ok r => all_finite r = false
    end ->
    exists e, outcome_of (run curve_fit (fit_model V J model p0) h) = Raise e.

(** "at v = 0, J = 0", for every finite barrier height and thickness. *)
Definition simmons_zero_at_zero : Prop :=
  forall np_exp : float -> float,
    special_values np_exp ->
    forall (h : heap) (V : loc) (vs : ndarray) (bh bt : float),
      nth_error h V = Some vs ->
      is_finite bh = true ->
      is_finite bt = true ->
      exists r h' out,
        simmons_current_density np_exp V bh bt h = (Ok r, h') /\
        nth_error h' r = Some out /\
        forall i v j,
          nth_error vs i = Some v -> is_zero v = true ->
          nth_error out i = Some j -> is_zero j = true.


End Spec.
Import Spec.

(** ** Classes of binary64 values, on their specification *)

Module SF.

Definition SFis_nan (a : spec_float) : bool :=
  match a with S754_nan => true | _ => false end.

Definition SFis_finite (a : spec_float) : bool :=
  match a with S754_zero _ | S754_finite _ _ _ => true | _ => false end.

Definition SFis_zero (a : spec_float) : bool :=
  match a with S754_zero _ => true | _ => false end.

(** The doubles [2.0], [-0.5] and [1.0]. *)
Definition SFtwo : spec_float := S754_finite false 4503599627370496 (-51).
Definition SFneg_half : spec_float := S754_finite true 4503599627370496 (-53).

End SF.
Import SF.

(** ** [esr/data.py] and [esr/gui/app.py] *)

Declare Scope gui_scope.
Delimit Scope gui_scope with gui.

Module Gui.

Import String.StringSyntax.
Local Open Scope string_scope.

Definition IndexError : exn := "IndexError".

(** The built-in exceptions that are no [Exception]: [except Exception]
    does not catch them. *)
Definition KeyboardInterrupt : exn := "KeyboardInterrupt".
Definition SystemExit : exn := "SystemExit".
Definition GeneratorExit : exn := "GeneratorExit".

Definition is_exception (e : exn) : bool :=
  negb (String.eqb e KeyboardInterrupt
        || String.eqb e SystemExit
        || String.eqb e GeneratorExit).

(** What [Series.to_numpy(dtype=float)] returns (its [copy] is [False]):
    the buffer of the column itself, an array of the store, when the
    column holds [float64] already, and the converted values otherwise. *)
Inductive converted : Type :=
| View (l : loc)
| Copy (xs : ndarray).

(** [str(n)] of a length. *)
Definition str_of_nat (n : nat) : String.string :=
  DecimalString.NilEmpty.string_of_uint (Nat.to_uint n).

Section WithToolkit.

(** The library objects the application holds: a [pandas.DataFrame], the
    [pandas.Series] its columns are, and a [matplotlib] axes. *)
Variables dataframe series axes : Type.

(** Calls into [tkinter], [matplotlib] and [pandas] that return a value,
    by the type of the value. *)
Inductive query : Type -> Type :=
| AskOpenFilename : query String.string
| ReadCsv (path : String.string) : query dataframe
| Len (df : dataframe) : query nat
| Iloc (df : dataframe) (column : nat) : query series
| ToNumpy (s : series) : query converted
| ModelVarGet : query String.string
| AddSubplot : query axes
| FigureAxes0 : query axes.

(** Calls that are made for what they do. *)
Inductive action : Type :=
| ResultVarSet (text : String.string)
| ShowInfo (title message : String.string)
| ShowError (title : String.string) (exc : exn)
| FigureClear
| AxPlotData (ax : axes) (x y : series)
| AxPlotFit (ax : axes) (V fitted : loc)
| SetXLabel (ax : axes) (label : String.string)
| SetYLabel (ax : axes) (label : String.string)
| AxLegend (ax : axes)
| CanvasDraw.

(** What the application did to the world outside, in order. *)
Inductive entry : Type :=
| Asked (X : Type) (q : query X)
| Did (a : action)
| Fitted (c : fit_call).

(** The application: [self.df], the arrays, and the calls made so far. *)
Record world : Type := {
  w_df : option dataframe;
  w_store : heap;
  w_log : list entry
}.

(** The world with more calls made. *)
Definition logged (w : world) (l : list entry) : world :=
  {| w_df := w_df w; w_store := w_store w; w_log := w_log w ++ l |}.

(** The world outside: what a library call returns or raises after the
    calls made so far, and the optimizer. *)
Variable answer : forall X : Type, list entry -> query X -> outcome X.
Variable react : list entry -> action -> outcome unit.
Variable curve_fit : optimizer.

(** [np.exp], and [format(x, ".3g")]. *)
Variable np_exp : float -> float.
Variable fmt_3g : float -> String.string.

Definition W (A : Type) : Type := world -> outcome A * world.

Definition wret {A} (a : A) : W A := fun w => (Ok a, w).

Definition wraise {A} (e : exn) : W A := fun w => (Raise e, w).

Definition wbind {A B} (c : W A) (k : A -> W B) : W B :=
  fun w => match c w with
           | (Ok a, w') => k a w'
           | (Raise e, w') => (Raise e, w')
           end.

Local Notation "x <- c ;; k" := (wbind c (fun x => k))
  (at level 100, c at next level, right associativity) : gui_scope.

Local Open Scope gui_scope.

(** [try: body except Exception as exc: handler(exc)]. *)
Definition try_except {A} (body : W A) (handler : exn -> W A) : W A :=
  fun w => match body w with
           | (Ok a, w') => (Ok a, w')
           | (Raise e, w') =>
               if is_exception e then handler e w' else (Raise e, w')
           end.

(** A library call: logged, and answered by the world outside. *)
Definition ask {X} (q : query X) : W X :=
  fun w => (answer X (w_log w) q, logged w [Asked X q]).

Definition do (a : action) : W unit :=
  fun w => (react (w_log w) a, logged w [Did a]).

(** NumPy code, on the arrays. *)
Definition lift {A} (m : M A) : W A :=
  fun w => let (o, h') := m (w_store w) in
           (o, {| w_df := w_df w; w_store := h'; w_log := w_log w |}).

(** A function of [fitting.py], against the optimizer. *)
Definition fit (p : prog fit_result) : W fit_result :=
  fun w => let '(o, h', calls) := run curve_fit p (w_store w) in
           (o, {| w_df := w_df w; w_store := h';
                  w_log := w_log w ++ map Fitted calls |}).

Definition get_df : W (option dataframe) := fun w => (Ok (w_df w), w).

Definition set_df (df : option dataframe) : W unit :=
  fun w => (Ok tt, {| w_df := df; w_store := w_store w; w_log := w_log w |}).

(** [s.to_numpy(dtype=float)]: the array with the values of the column,
    which is the column's own buffer or a new array. *)
Definition to_numpy (s : series) : W loc :=
  r <- ask (ToNumpy s) ;;
  match r with
  | View l => wret l
  | Copy xs => lift (new_array xs)
  end.

(** [params[i]]. *)
Definition getitem (params : ndarray) (i : nat) : W float :=
  match nth_error params i with
  | Some x => wret x
  | None => wraise IndexError
  end.

(** [data.load_iv_csv]. *)
Definition load_iv_csv (path : String.string) : W dataframe :=
  df <- ask (ReadCsv path) ;;
  wret df.

(** [AnalyzerApp._plot_raw]. *)
Definition plot_raw : W unit :=
  df <- get_df ;;
  match df with
  | None => wret tt
  | Some d =>
      _ <- do FigureClear ;;
      ax <- ask AddSubplot ;;
      x <- ask (Iloc d 0) ;;
      y <- ask (Iloc d 1) ;;
      _ <- do (AxPlotData ax x y) ;;
      _ <- do (SetXLabel ax "Voltage") ;;
      _ <- do (SetYLabel ax "Current / Current density") ;;
      _ <- do (AxLegend ax) ;;
      do CanvasDraw
  end.

(** [AnalyzerApp.load_data]. *)
Definition load_data : W unit :=
  path <- ask AskOpenFilename ;;
  if String.eqb path ""
  then wret tt
  else
    try_except
      (df <- load_iv_csv path ;;
       _ <- set_df (Some df) ;;
       n <- ask (Len df) ;;
       _ <- do (ResultVarSet
                  (String.concat ""
                     ["Loaded "; str_of_nat n; " rows from "; path])) ;;
       plot_raw)
      (fun exc => do (ShowError "Error" exc)).

(** The two branches of [run_fit]: the fit, the text that describes its
    parameters, and the curve of the fitted model over [V]. *)
Definition fit_and_describe (model_name : String.string) (V J : loc)
  : W (String.string * loc) :=
  if String.eqb model_name "simmons"
  then
    r <- fit (fit_simmons np_exp V J) ;;
    let '(params, _) := r in
    p0 <- getitem params 0 ;;
    p1 <- getitem params 1 ;;
    let desc := String.concat ""
                  ["Simmons fit: phi="; fmt_3g p0;
                   " eV, s="; fmt_3g p1; " nm"] in
    fitted <- lift (call (simmons_model np_exp) V params) ;;
    wret (desc, fitted)
  else
    r <- fit (fit_bdr np_exp V J) ;;
    let '(params, _) := r in
    p0 <- getitem params 0 ;;
    p1 <- getitem params 1 ;;
    p2 <- getitem params 2 ;;
    let desc := String.concat ""
                  ["BDR fit: phi="; fmt_3g p0;
                   " eV, s="; fmt_3g p1;
                   " nm, Δϕ="; fmt_3g p2; " eV"] in
    fitted <- lift (call (bdr_model np_exp) V params) ;;
    wret (desc, fitted).

(** The [try] statement of [run_fit]. *)
Definition fit_and_plot (model_name : String.string) (V J : loc) : W unit :=
  try_except
    (r <- fit_and_describe model_name V J ;;
     let '(desc, fitted) := r in
     _ <- do (ResultVarSet desc) ;;
     _ <- plot_raw ;;
     ax <- ask FigureAxes0 ;;
     _ <- do (AxPlotFit ax V fitted) ;;
     _ <- do (AxLegend ax) ;;
     do CanvasDraw)
    (fun exc => do (ShowError "Fit error" exc)).

(** [AnalyzerApp.run_fit]. *)
Definition run_fit : W unit :=
  df <- get_df ;;
  match df with
  | None => do (ShowInfo "No data" "Please load a CSV file first")
  | Some d =>
      c0 <- ask (Iloc d 0) ;;
      V <- to_numpy c0 ;;
      c1 <- ask (Iloc d 1) ;;
      J <- to_numpy c1 ;;
      model_name <- ask ModelVarGet ;;
      fit_and_plot model_name V J
  end.

(** The optimizer call [run_fit] makes for a model name. *)
Definition chosen_call (model_name : String.string) (V J : loc) : fit_call :=
  if String.eqb model_name "simmons"
  then {| fc_f := simmons_model np_exp; fc_xdata := V; fc_ydata := J;
          fc_p0 := [1.0; 1.0]%float; fc_maxfev := 20000 |}
  else {| fc_f := bdr_model np_exp; fc_xdata := V; fc_ydata := J;
          fc_p0 := [1.0; 1.0; 0.0]%float; fc_maxfev := 20000 |}.

(** An entry of the log that is a library call, not a fit. *)
Definition is_library_call (e : entry) : Prop :=
  match e with Fitted _ => False | _ => True end.

(** A computation that makes library calls and nothing else: [self.df]
    and the arrays are as they were. *)
Definition calls_only {A} (c : W A) : Prop :=
  forall w, exists l,
    snd (c w) = logged w l /\ Forall is_library_call l.

(** A computation that adds library calls to the log, and no fit. *)
Definition fits_nothing {A} (c : W A) : Prop :=
  forall w, exists l,
    w_log (snd (c w)) = w_log w ++ l /\ Forall is_library_call l.

(** Drawing the table [d] succeeds: no toolkit call raises, the figure has
    its axes, and the first and the second column of [d] are [x] and
    [y]. *)
Definition plots_succeed (d : dataframe) (x y : series) : Prop :=
  (forall hist a, react hist a = Ok tt)
  /\ (forall hist, exists ax, answer axes hist AddSubplot = Ok ax)
  /\ (forall hist, exists ax, answer axes hist FigureAxes0 = Ok ax)
  /\ (forall hist, answer series hist (Iloc d 0) = Ok x)
  /\ (forall hist, answer series hist (Iloc d 1) = Ok y).

End WithToolkit.

Arguments Asked {dataframe series axes} X q.
Arguments Did {dataframe series axes} a.
Arguments Fitted {dataframe series axes} c.
Arguments AskOpenFilename {dataframe series axes}.
Arguments ModelVarGet {dataframe series axes}.
Arguments AddSubplot {dataframe series axes}.
Arguments FigureAxes0 {dataframe series axes}.
Arguments ReadCsv {dataframe series axes} path.
Arguments Len {dataframe series axes} df.
Arguments Iloc {dataframe series axes} df column.
Arguments ToNumpy {dataframe series axes} s.
Arguments ResultVarSet {series axes} text.
Arguments ShowInfo {series axes} title message.
Arguments ShowError {series axes} title exc.
Arguments FigureClear {series axes}.
Arguments CanvasDraw {series axes}.
Arguments AxPlotData {series axes} ax x y.
Arguments AxPlotFit {series axes} ax V fitted.
Arguments SetXLabel {series axes} ax label.
Arguments SetYLabel {series axes} ax label.
Arguments AxLegend {series axes} ax.
Arguments w_df {dataframe series axes} w.
Arguments w_store {dataframe series axes} w.
Arguments w_log {dataframe series axes} w.
Arguments logged {dataframe series axes} w l.
Arguments is_library_call {dataframe series axes} e.
Arguments calls_only {dataframe series axes A} c.
Arguments fits_nothing {dataframe series axes A} c.
Arguments plots_succeed {dataframe series axes} answer react d x y.
Arguments wret {dataframe series axes A} a.
Arguments wraise {dataframe series axes A} e.
Arguments wbind {dataframe series axes A B} c k.
Arguments try_except {dataframe series axes A} body handler.
Arguments ask {dataframe series axes} answer {X} q.
Arguments do {dataframe series axes} react a.
Arguments lift {dataframe series axes A} m.
Arguments fit {dataframe series axes} curve_fit p.
Arguments get_df {dataframe series axes}.
Arguments set_df {dataframe series axes} df.
Arguments to_numpy {dataframe series axes} answer s.
Arguments getitem {dataframe series axes} params i.
Arguments load_iv_csv {dataframe series axes} answer path.
Arguments plot_raw {dataframe series axes} answer react.
Arguments load_data {dataframe series axes} answer react.
Arguments fit_and_describe {dataframe series axes} curve_fit np_exp fmt_3g
  model_name V J.
Arguments fit_and_plot {dataframe series axes} answer react curve_fit np_exp
  fmt_3g model_name V J.
Arguments run_fit {dataframe series axes} answer react curve_fit np_exp fmt_3g.

(** A world outside for examples.  A table is the list of its columns, a
    column the list of its cells, and a cell holds a number or text that
    is none.  The file dialog returns [path], reading the file gives
    [frame] or raises, a column that is missing is an [IndexError], a
    column with a cell that is no number cannot be converted, a column of
    numbers is converted to a new array, and the toolkit calls succeed. *)
Definition cell : Type := option float.

Definition column : Type := list cell.

Definition table : Type := list column.

Definition is_number (c : cell) : bool :=
  match c with Some _ => true | None => false end.

Definition number (c : cell) : float :=
  match c with Some x => x | None => nan end.

Definition demo_to_numpy (s : column) : outcome converted :=
  if forallb is_number s then Ok (Copy (map number s)) else Raise ValueError.

Definition demo_iloc (df : table) (i : nat) : outcome column :=
  match nth_error df i with
  | Some s => Ok s
  | None => Raise IndexError
  end.

Definition demo_answer (path : String.string) (frame : outcome table)
  : forall X : Type,
    list (entry table column unit) ->
    query table column unit X -> outcome X :=
  fun X _ q =>
    match q in query _ _ _ X return outcome X with
    | AskOpenFilename => Ok path
    | ReadCsv _ => frame
    | Len df => Ok (length (hd [] df))
    | Iloc df i => demo_iloc df i
    | ToNumpy s => demo_to_numpy s
    | ModelVarGet => Ok "simmons"
    | AddSubplot => Ok tt
    | FigureAxes0 => Ok tt
    end.

Definition demo_react
  : list (entry table column unit) -> action column unit -> outcome unit :=
  fun _ _ => Ok tt.

Definition demo_fmt (x : float) : String.string :=
  if is_nan x then "nan" else "number".

(** A table of three samples, and one whose first column has text. *)
Definition demo_table : table :=
  [[Some (-1)%float; Some 0%float; Some 1%float];
   [Some (-0.5)%float; Some 0%float; Some 0.5%float]].

Definition text_table : table :=
  [[None; Some 1%float]; [Some 0%float; Some 0.5%float]].

(** The arrays of [demo_table]. *)
Definition demo_store : heap :=
  [[-1; 0; 1]%float; [-0.5; 0; 0.5]%float].

Definition demo_world (df : option table) (h : heap)
  : world table column unit :=
  {| w_df := df; w_store := h; w_log := [] |}.

(** A world outside in which a table holds [float64] columns: a column
    is the location of its buffer, and converting it returns that buffer
    as it is. *)
Definition float_answer (rows : nat)
  : forall X : Type,
    list (entry (list loc) loc unit) ->
    query (list loc) loc unit X -> outcome X :=
  fun X _ q =>
    match q in query _ _ _ X return outcome X with
    | AskOpenFilename => Ok ""
    | ReadCsv _ => Raise ValueError
    | Len _ => Ok rows
    | Iloc df i => match nth_error df i with
                   | Some s => Ok s
                   | None => Raise IndexError
                   end
    | ToNumpy s => Ok (View s)
    | ModelVarGet => Ok "bdr"
    | AddSubplot => Ok tt
    | FigureAxes0 => Ok tt
    end.

Definition float_react
  : list (entry (list loc) loc unit) -> action loc unit -> outcome unit :=
  fun _ _ => Ok tt.

End Gui.
Import Gui.

(** * Facts *)

(** ** binary64 arithmetic *)

Module F64.

(** *** Classification *)

Lemma SFeqb_refl a : SFeqb a a = negb (SFis_nan a).
Proof.
  destruct a as [s|s| |s m e]; try reflexivity; try (destruct s; reflexivity).
  unfold SFeqb, SFcompare. rewrite Z.compare_refl, Pos.compare_cont_refl.
  destruct s; reflexivity.
Qed.

Lemma is_nan_spec x : is_nan x = SFis_nan (Prim2SF x).
Proof.
  unfold is_nan. rewrite eqb_spec, SFeqb_refl. apply negb_involutive.
Qed.

Lemma is_infinity_spec x :
  is_infinity x = match Prim2SF x with S754_infinity _ => true | _ => false end.
Proof.
  unfold is_infinity. rewrite eqb_spec, abs_spec.
  change (Prim2SF infinity) with (S754_infinity false).
  destruct (Prim2SF x) as [s|s| |s m e]; reflexivity.
Qed.

Lemma is_finite_spec x : is_finite x = SFis_finite (Prim2SF x).
Proof.
  unfold is_finite. rewrite is_nan_spec, is_infinity_spec.
  destruct (Prim2SF x); reflexivity.
Qed.

Lemma is_zero_spec x : is_zero x = SFis_zero (Prim2SF x).
Proof.
  unfold is_zero. rewrite eqb_spec. change (Prim2SF zero) with (S754_zero false).
  destruct (Prim2SF x) as [s|s| |s m e]; try reflexivity; destruct s; reflexivity.
Qed.

Lemma zero_cases x : SFis_zero (Prim2SF x) = true -> x = zero \/ x = neg_zero.
Proof.
  intros H. rewrite <- (SF2Prim_Prim2SF x).
  destruct (Prim2SF x) as [s|s| |s m e]; try discriminate.
  destruct s; [right|left]; reflexivity.
Qed.

Lemma zero_cases_SF z :
  z = zero \/ z = neg_zero -> exists s, Prim2SF z = S754_zero s.
Proof.
  intros [->| ->]; [exists false|exists true]; reflexivity.
Qed.

Lemma is_zero_cases x : is_zero x = true <-> x = zero \/ x = neg_zero.
Proof.
  rewrite is_zero_spec. split; [apply zero_cases|].
  intros H. destruct (zero_cases_SF x H) as [s ->]. reflexivity.
Qed.

Lemma finite_not_nan x : is_finite x = true -> is_nan x = false.
Proof.
  rewrite is_finite_spec, is_nan_spec. destruct (Prim2SF x); easy.
Qed.

Lemma valid_finite s m e :
  valid_binary (S754_finite s m e) = true ->
  (Z.max (Zpos (digits2_pos m) + e - 53) (-1074) = e /\ e <= 971)%Z.
Proof.
  cbn [SpecFloat.valid_binary].
  unfold bounded, canonical_mantissa, fexp, SpecFloat.emin.
  intros H. apply andb_prop in H. destruct H as [H1 H2].
  apply Z.eqb_eq in H1. apply Z.leb_le in H2. split; assumption.
Qed.

(** *** Rounding *)

Lemma digits_shift52 m :
  (Zpos (digits2_pos (4503599627370496 * m)%positive)
   = Zpos (digits2_pos m) + 52)%Z.
Proof. cbn [Pos.mul digits2_pos]. lia. Qed.

Lemma shr_fexp_shift m e l n :
  (Z.max (Zdigits2 m + e - 53) (-1074) - e = n)%Z ->
  shr_fexp prec emax m e l = shr (shr_record_of_loc m l) e n.
Proof.
  intros H. unfold shr_fexp, fexp, SpecFloat.emin.
  change (3 - emax - prec)%Z with (-1074)%Z. change prec with 53%Z.
  now rewrite H.
Qed.

Lemma binary_round_aux_shr s m1 e1 l1 m2 e2 l2 :
  shr_fexp prec emax m1 e1 l1 = shr_fexp prec emax m2 e2 l2 ->
  binary_round_aux prec emax s m1 e1 l1 = binary_round_aux prec emax s m2 e2 l2.
Proof. intros H. unfold binary_round_aux. now rewrite H. Qed.

Lemma SFopp_binary_round_aux s m e l :
  SFopp (binary_round_aux prec emax s m e l)
  = binary_round_aux prec emax (negb s) m e l.
Proof.
  unfold binary_round_aux.
  destruct (shr_fexp prec emax m e l) as [mrs' e'].
  destruct (shr_fexp prec emax _ e' loc_Exact) as [mrs'' e''].
  destruct (shr_m mrs''); try reflexivity.
  destruct (e'' <=? emax - prec)%Z; reflexivity.
Qed.

(** Shifting right keeps a mantissa non-negative, and so does rounding:
    no NaN comes out of [binary_round_aux]. *)
Lemma iter_pos_inv {A} (P : A -> Prop) (f : A -> A) :
  (forall x, P x -> P (f x)) -> forall n x, P x -> P (iter_pos f n x).
Proof.
  intros Hf. induction n as [n IH|n IH|]; intros x Hx; cbn [iter_pos]; auto.
Qed.

Lemma shr_1_nonneg mrs : (0 <= shr_m mrs)%Z -> (0 <= shr_m (shr_1 mrs))%Z.
Proof.
  destruct mrs as [m r s]. cbn [shr_m]. unfold shr_1.
  destruct m as [|[p|p|]|p]; cbn [shr_m]; lia.
Qed.

Lemma shr_nonneg mrs e n :
  (0 <= shr_m mrs)%Z -> (0 <= shr_m (fst (shr mrs e n)))%Z.
Proof.
  intros H. unfold shr. destruct n as [|p|p]; cbn [fst]; auto.
  apply iter_pos_inv with (P := fun r => (0 <= shr_m r)%Z);
    auto using shr_1_nonneg.
Qed.

Lemma shr_record_of_loc_m m l : shr_m (shr_record_of_loc m l) = m.
Proof. destruct l as [|[| |]]; reflexivity. Qed.

Lemma shr_fexp_nonneg m e l :
  (0 <= m)%Z -> (0 <= shr_m (fst (shr_fexp prec emax m e l)))%Z.
Proof.
  intros H. unfold shr_fexp. apply shr_nonneg.
  now rewrite shr_record_of_loc_m.
Qed.

Lemma round_nearest_even_nonneg m l :
  (0 <= m)%Z -> (0 <= round_nearest_even m l)%Z.
Proof.
  intros H. unfold round_nearest_even.
  destruct l as [|[| |]]; try lia. destruct (Z.even m); lia.
Qed.

Lemma binary_round_aux_not_nan s m e l :
  (0 <= m)%Z -> SFis_nan (binary_round_aux prec emax s m e l) = false.
Proof.
  intros H. unfold binary_round_aux.
  pose proof (shr_fexp_nonneg m e l H) as H1.
  destruct (shr_fexp prec emax m e l) as [mrs' e']. cbn [fst] in H1.
  pose proof (shr_fexp_nonneg _ e' loc_Exact
                (round_nearest_even_nonneg _ (loc_of_shr_record mrs') H1))
    as H2.
  destruct (shr_fexp prec emax _ e' loc_Exact) as [mrs'' e''].
  cbn [fst] in H2.
  destruct (shr_m mrs'') as [|p|p]; try reflexivity; try lia.
  destruct (e'' <=? emax - prec)%Z; reflexivity.
Qed.


End F64.
Import F64.

(** ** Exact identities of binary64 arithmetic *)

Module F64Arith.

(** *** Subtraction is addition of the opposite *)

Lemma SFsub_add_opp x y : SF64sub x y = SF64add x (SFopp y).
Proof.
  destruct x as [sx|sx| |sx mx ex], y as [sy|sy| |sy my ey];
    try reflexivity; destruct sx, sy; reflexivity.
Qed.

Lemma sub_add_opp x y : (x - y = x + - y)%float.
Proof.
  apply Prim2SF_inj. now rewrite sub_spec, add_spec, opp_spec, SFsub_add_opp.
Qed.

(** *** Multiplication by one *)



(** *** Halving: [v / 2.0] and [-0.5 * v] round alike *)

Lemma div_eucl_unique a b q r :
  (0 <= r < b -> a = b * q + r -> Z.div_eucl a b = (q, r))%Z.
Proof.
  intros Hr E.
  generalize (Z.div_eucl_eq a b) (Z.mod_pos_bound a b).
  unfold Z.modulo, Z.div. destruct (Z.div_eucl a b) as [q' r']. cbn [fst snd].
  intros E' B. assert (Hb : (0 < b)%Z) by lia.
  specialize (E' ltac:(lia)). specialize (B Hb).
  assert (q' = q) by nia. subst q'. f_equal. lia.
Qed.

Lemma div_core_two m e e' s q r :
  (e' = Z.min (Z.max (Zpos (digits2_pos m) + e - 2 - 53) (-1074)) (e + 51))%Z ->
  (0 < s)%Z -> (s = e + 51 - e')%Z ->
  (0 <= r < 4503599627370496)%Z ->
  (Zpos m * 2 ^ s = 4503599627370496 * q + r)%Z ->
  SFdiv_core_binary prec emax (Zpos m) e 4503599627370496 (-51)
  = (q, e', new_location 4503599627370496 r).
Proof.
  intros He' Hs Es Hr E. unfold SFdiv_core_binary, fexp, SpecFloat.emin.
  change (Zdigits2 4503599627370496) with 53%Z. unfold Zdigits2.
  change (3 - emax - prec)%Z with (-1074)%Z. change prec with 53%Z.
  cbv zeta.
  replace (Z.min (Z.max (Z.pos (digits2_pos m) + e - (53 + -51) - 53) (-1074))
                 (e - -51))%Z with e' by lia.
  replace (e - -51 - e')%Z with s by lia.
  destruct s as [|p|p]; try lia.
  change IntDef.Z.shiftl with Z.shiftl.
  change IntDef.Z.div_eucl with Z.div_eucl.
  rewrite Z.shiftl_mul_pow2 by lia.
  now rewrite (div_eucl_unique _ _ q r Hr E).
Qed.

(** The quotient by two as one rounding of [(q, e', r)]. *)
Lemma SFdiv_two_finite sg m e e' s q r :
  (e' = Z.min (Z.max (Zpos (digits2_pos m) + e - 2 - 53) (-1074)) (e + 51))%Z ->
  (0 < s)%Z -> (s = e + 51 - e')%Z ->
  (0 <= r < 4503599627370496)%Z ->
  (Zpos m * 2 ^ s = 4503599627370496 * q + r)%Z ->
  SFopp (SF64div (S754_finite sg m e) SFtwo)
  = binary_round_aux prec emax (xorb true sg) q e'
                     (new_location 4503599627370496 r).
Proof.
  intros He' Hs Es Hr E. unfold SF64div, SFdiv, SFtwo.
  rewrite (div_core_two m e e' s q r He' Hs Es Hr E).
  rewrite SFopp_binary_round_aux. f_equal. destruct sg; reflexivity.
Qed.

Lemma SFmul_neg_half v :
  valid_binary v = true -> SF64mul SFneg_half v = SFopp (SF64div v SFtwo).
Proof.
  destruct v as [s|s| |s m e]; intros V;
    try (destruct s; reflexivity); try reflexivity.
  apply valid_finite in V. destruct V as [Hc Hb].
  assert (Hm : (Zpos (digits2_pos (4503599627370496 * m))
                = Zpos (digits2_pos m) + 52)%Z) by apply digits_shift52.
  assert (Hcase : (Zpos (digits2_pos m) = 53 /\ -1072 <= e
                   \/ Zpos (digits2_pos m) = 53 /\ e = -1073
                   \/ e = -1074 /\ Zpos (digits2_pos m) <= 53)%Z) by lia.
  destruct Hcase as [[Hd He]|[[Hd He]|[He Hd]]].
  - (* normal, and the half is normal: the mantissa is kept *)
    rewrite (SFdiv_two_finite s m e (e - 2)%Z 53%Z (Zpos m~0) 0%Z)
      by (try change (2 ^ 53)%Z with 9007199254740992%Z; lia).
    unfold SF64mul, SFmul, SFneg_half. apply binary_round_aux_shr.
    change (new_location 4503599627370496 0) with loc_Exact.
    rewrite (shr_fexp_shift _ _ _ 52%Z) by (unfold Zdigits2; lia).
    rewrite (shr_fexp_shift _ _ _ 1%Z)
      by (unfold Zdigits2; cbn [digits2_pos]; lia).
    cbn [shr iter_pos shr_1 shr_record_of_loc Pos.mul shr_m orb].
    f_equal. lia.
  - (* the smallest normal exponent: the half is subnormal, still exact *)
    subst e.
    rewrite (SFdiv_two_finite s m _ (-1074)%Z 52%Z (Zpos m) 0%Z)
      by (try change (2 ^ 52)%Z with 4503599627370496%Z; lia).
    unfold SF64mul, SFmul, SFneg_half. apply binary_round_aux_shr.
    change (new_location 4503599627370496 0) with loc_Exact.
    rewrite (shr_fexp_shift _ _ _ 52%Z) by (unfold Zdigits2; lia).
    rewrite (shr_fexp_shift _ _ _ 0%Z) by (unfold Zdigits2; lia).
    cbn [shr iter_pos shr_1 shr_record_of_loc Pos.mul shr_m orb].
    reflexivity.
  - (* the lowest exponent: the last bit of the mantissa is rounded *)
    subst e. destruct m as [p|p|].
    + rewrite (SFdiv_two_finite s _ _ (-1074)%Z 51%Z (Zpos p)
                                2251799813685248%Z)
        by (try change (2 ^ 51)%Z with 2251799813685248%Z; lia).
      unfold SF64mul, SFmul, SFneg_half. apply binary_round_aux_shr.
      change (new_location 4503599627370496 2251799813685248)
        with (loc_Inexact Eq).
      rewrite (shr_fexp_shift _ _ _ 53%Z) by (unfold Zdigits2; lia).
      cbn [digits2_pos] in Hd.
      rewrite (shr_fexp_shift _ _ _ 0%Z) by (unfold Zdigits2; lia).
      cbn [shr iter_pos shr_1 shr_record_of_loc Pos.mul shr_m orb].
      reflexivity.
    + rewrite (SFdiv_two_finite s _ _ (-1074)%Z 51%Z (Zpos p) 0%Z)
        by (try change (2 ^ 51)%Z with 2251799813685248%Z; lia).
      unfold SF64mul, SFmul, SFneg_half. apply binary_round_aux_shr.
      change (new_location 4503599627370496 0) with loc_Exact.
      rewrite (shr_fexp_shift _ _ _ 53%Z) by (unfold Zdigits2; lia).
      cbn [digits2_pos] in Hd.
      rewrite (shr_fexp_shift _ _ _ 0%Z) by (unfold Zdigits2; lia).
      cbn [shr iter_pos shr_1 shr_record_of_loc Pos.mul shr_m orb].
      reflexivity.
    + rewrite (SFdiv_two_finite s _ _ (-1074)%Z 51%Z 0%Z 2251799813685248%Z)
        by (try change (2 ^ 51)%Z with 2251799813685248%Z; lia).
      unfold SF64mul, SFmul, SFneg_half. apply binary_round_aux_shr.
      change (new_location 4503599627370496 2251799813685248)
        with (loc_Inexact Eq).
      rewrite (shr_fexp_shift _ _ _ 53%Z) by (unfold Zdigits2; lia).
      rewrite (shr_fexp_shift _ _ _ 0%Z) by (unfold Zdigits2; lia).
      cbn [shr iter_pos shr_1 shr_record_of_loc Pos.mul shr_m orb].
      reflexivity.
Qed.

Lemma mul_neg_half v : (-0.5 * v = - (v / 2))%float.
Proof.
  apply Prim2SF_inj. rewrite mul_spec, opp_spec, div_spec.
  apply SFmul_neg_half, Prim2SF_valid.
Qed.

(** The barrier of the BDR model at asymmetry [-0.5] is the barrier of the
    Simmons model, bit for bit and for every double. *)
Lemma bdr_barrier_at_neg_half h v : (h + -0.5 * v = h - v / 2)%float.
Proof. now rewrite mul_neg_half, sub_add_opp. Qed.

(** *** Operations that make no NaN *)











(** *** Comparisons *)


Lemma leb_not_nan_r x y : (x <=? y)%float = true -> is_nan y = false.
Proof.
  rewrite leb_spec, is_nan_spec. unfold SFleb.
  destruct (Prim2SF x) as [s|s| |s m e], (Prim2SF y) as [s'|s'| |s' m' e'];
    easy.
Qed.

Lemma leb_antisym_zero x :
  (0 <=? x)%float = true -> (x <=? 0)%float = true ->
  x = zero \/ x = neg_zero.
Proof.
  rewrite !leb_spec. change (Prim2SF 0) with (S754_zero false). intros H1 H2.
  apply zero_cases. unfold SFleb in *.
  destruct (Prim2SF x) as [s|s| |s m e]; try reflexivity; try discriminate;
    destruct s; discriminate.
Qed.

(** *** Products with a zero *)

Lemma mul_zero_r c z :
  is_finite c = true -> z = zero \/ z = neg_zero ->
  (c * z)%float = zero \/ (c * z)%float = neg_zero.
Proof.
  rewrite is_finite_spec. intros Hc Hz. apply zero_cases. rewrite mul_spec.
  destruct (zero_cases_SF z Hz) as [s ->]. destruct (Prim2SF c); easy.
Qed.

Lemma mul_zero_l z e :
  z = zero \/ z = neg_zero -> is_finite e = true ->
  (z * e)%float = zero \/ (z * e)%float = neg_zero.
Proof.
  rewrite is_finite_spec. intros Hz He. apply zero_cases. rewrite mul_spec.
  destruct (zero_cases_SF z Hz) as [s ->]. destruct (Prim2SF e); easy.
Qed.

Lemma mul_zero_l_not_finite z e :
  z = zero \/ z = neg_zero -> is_finite e = false -> (z * e)%float = nan.
Proof.
  rewrite is_finite_spec. intros Hz He. apply Prim2SF_inj. rewrite mul_spec.
  destruct (zero_cases_SF z Hz) as [s ->]. destruct (Prim2SF e); easy.
Qed.

End F64Arith.
Import F64Arith.

(** ** The clamp and what follows it *)

Module Clamp.

Lemma ltb_leb x y : (x <? y)%float = true -> (x <=? y)%float = true.
Proof.
  rewrite ltb_spec, leb_spec. unfold SFltb, SFleb.
  destruct (SFcompare _ _) as [[| |]|]; easy.
Qed.


Lemma nonneg_not_pos x :
  (0 <=? x)%float = true -> (0 <? x)%float = false ->
  x = zero \/ x = neg_zero.
Proof.
  rewrite ltb_spec, leb_spec. change (Prim2SF 0) with (S754_zero false).
  intros H1 H2. apply zero_cases. unfold SFltb, SFleb in *.
  destruct (Prim2SF x) as [s|s| |s m e]; try reflexivity; try discriminate;
    destruct s; discriminate.
Qed.

Lemma clamp_nonneg x :
  is_nan x = false -> (0 <=? np_maximum x 0)%float = true.
Proof.
  intros Hx. unfold np_maximum. rewrite Hx, orb_false_r.
  destruct (0 <? x)%float eqn:E; [now apply ltb_leb|reflexivity].
Qed.

Lemma clamp_not_nan x : is_nan x = false -> is_nan (np_maximum x 0) = false.
Proof. intros Hx. eapply leb_not_nan_r, clamp_nonneg, Hx. Qed.

Lemma clamp_unclamped x : (0 <? x)%float = true -> np_maximum x 0 = x.
Proof. intros H. unfold np_maximum. now rewrite H. Qed.

(** At a value that is not below zero the clamp changes nothing but the
    sign of a zero. *)
Lemma clamp_at_nonneg x :
  (0 <=? x)%float = true ->
  np_maximum x 0 = x \/ (x = neg_zero /\ np_maximum x 0 = zero).
Proof.
  intros H. unfold np_maximum. rewrite (leb_not_nan_r _ _ H), orb_false_r.
  destruct (0 <? x)%float eqn:E; [now left|].
  destruct (nonneg_not_pos x H E) as [->| ->]; [now left|now right].
Qed.





Section WithExp.

Variable np_exp : float -> float.
Hypothesis np_exp_special : special_values np_exp.

Lemma exp_of_zero z : z = zero \/ z = neg_zero -> np_exp z = 1%float.
Proof.
  intros [->| ->]; [apply (exp_zero _ np_exp_special)
                   |apply (exp_neg_zero _ np_exp_special)].
Qed.


End WithExp.

End Clamp.
Import Clamp.

(** ** The store *)

Module Store.

Lemma lookup_new (h : heap) (a : ndarray) :
  nth_error (h ++ [a]) (length h) = Some a.
Proof. rewrite nth_error_app2, Nat.sub_diag by lia. reflexivity. Qed.

Lemma lookup_old (h : heap) (a x : ndarray) (l : loc) :
  nth_error h l = Some x -> nth_error (h ++ [a]) l = Some x.
Proof.
  intros H. rewrite nth_error_app1; [exact H|].
  apply nth_error_Some. congruence.
Qed.

Lemma preserves_app (h fresh : heap) : preserves h (h ++ fresh).
Proof.
  intros l a H. rewrite nth_error_app1; [exact H|].
  apply nth_error_Some. congruence.
Qed.

Lemma preserves_refl (h : heap) : preserves h h.
Proof. intros l a H. exact H. Qed.

Lemma preserves_trans (h1 h2 h3 : heap) :
  preserves h1 h2 -> preserves h2 h3 -> preserves h1 h3.
Proof. intros H12 H23 l a H. auto. Qed.

Lemma grows_preserves {A} (c : M A) : grows c -> forall h, preserves h (snd (c h)).
Proof. intros G h. destruct (G h) as [fresh ->]. apply preserves_app. Qed.

Lemma grows_ret {A} (a : A) : grows (ret a).
Proof. intros h. exists []. cbn. now rewrite app_nil_r. Qed.

Lemma grows_raise {A} (e : exn) : grows (@raise A e).
Proof. intros h. exists []. cbn. now rewrite app_nil_r. Qed.

Lemma grows_get (l : loc) : grows (get l).
Proof.
  intros h. exists []. unfold get.
  destruct (nth_error h l); cbn; now rewrite app_nil_r.
Qed.

Lemma grows_new_array (a : ndarray) : grows (new_array a).
Proof. intros h. exists [a]. reflexivity. Qed.

Lemma grows_bind {A B} (c : M A) (k : A -> M B) :
  grows c -> (forall a, grows (k a)) -> grows (bind c k).
Proof.
  intros Gc Gk h. unfold bind. destruct (Gc h) as [f1 E1].
  destruct (c h) as [[a|e] h1]; cbn [snd] in E1; subst h1.
  - destruct (Gk a (h ++ f1)) as [f2 E2]. exists (f1 ++ f2).
    now rewrite E2, app_assoc.
  - exists f1. reflexivity.
Qed.

Lemma grows_ufunc1 f a : grows (ufunc1 f a).
Proof.
  apply grows_bind; [apply grows_get|intros xs; apply grows_new_array].
Qed.

Lemma grows_ufunc2 f a b : grows (ufunc2 f a b).
Proof.
  apply grows_bind; [apply grows_get|intros xs].
  apply grows_bind; [apply grows_get|intros ys].
  destruct (broadcast2 f xs ys); [apply grows_new_array|apply grows_raise].
Qed.

(** One step of a computation whose operand is allocated. *)
Lemma bind_ufunc1 {B} f a (k : loc -> M B) (h : heap) (xs : ndarray) :
  nth_error h a = Some xs ->
  bind (ufunc1 f a) k h = k (length h) (h ++ [map f xs]).
Proof.
  intros H. unfold ufunc1, bind, get, new_array. cbv beta. now rewrite H.
Qed.

Lemma zip_maps {X} (f : float -> float -> float) (g k : X -> float) (vs : list X) :
  map (fun p => f (fst p) (snd p)) (combine (map g vs) (map k vs))
  = map (fun v => f (g v) (k v)) vs.
Proof.
  induction vs as [|v vs IH]; cbn [map combine fst snd]; [reflexivity|].
  now rewrite IH.
Qed.

Lemma ufunc2_same_shape {X} f (g k : X -> float) (vs : list X) a b (h : heap) :
  nth_error h a = Some (map g vs) ->
  nth_error h b = Some (map k vs) ->
  ufunc2 f a b h
  = (Ok (length h), h ++ [map (fun v => f (g v) (k v)) vs]).
Proof.
  intros Ha Hb. unfold ufunc2, bind, get, new_array, broadcast2. cbv beta.
  rewrite Ha, Hb, !length_map, Nat.eqb_refl, zip_maps. reflexivity.
Qed.

End Store.
Import Store.

(** ** The model functions, run *)

Module ModelsRun.

Ltac lookup :=
  repeat first [ apply lookup_new | apply lookup_old ]; eassumption.

Section WithExp.

Variable np_exp : float -> float.

(** On an allocated voltage array the function returns a fresh array that
    holds the documented formula of every sample. *)
Lemma simmons_run (h : heap) (V : loc) (vs : ndarray) (bh bt : float) :
  nth_error h V = Some vs ->
  exists h',
    simmons_current_density np_exp V bh bt h
    = (Ok (length h'), h' ++ [map (simmons_formula np_exp bh bt) vs])
    /\ exists mid, h' = h ++ mid.
Proof.
  intros HV. eexists. unfold simmons_current_density. cbv zeta.
  do 7 (erewrite bind_ufunc1 by lookup).
  rewrite !map_map. erewrite ufunc2_same_shape by lookup.
  split; [reflexivity|].
  eexists. rewrite <- !app_assoc. reflexivity.
Qed.

Lemma bdr_run (h : heap) (V : loc) (vs : ndarray) (bh bt asym : float) :
  nth_error h V = Some vs ->
  exists h',
    bdr_current_density np_exp V bh bt asym h
    = (Ok (length h'), h' ++ [map (bdr_formula np_exp bh bt asym) vs])
    /\ exists mid, h' = h ++ mid.
Proof.
  intros HV. eexists. unfold bdr_current_density. cbv zeta.
  do 7 (erewrite bind_ufunc1 by lookup).
  rewrite !map_map. erewrite ufunc2_same_shape by lookup.
  split; [reflexivity|].
  eexists. rewrite <- !app_assoc. reflexivity.
Qed.

(** Allocated or not, nothing that was in the store is written. *)
Lemma grows_simmons V bh bt : grows (simmons_current_density np_exp V bh bt).
Proof.
  unfold simmons_current_density. cbv zeta.
  repeat (apply grows_bind; [apply grows_ufunc1|intros ?]).
  apply grows_ufunc2.
Qed.

Lemma grows_bdr V bh bt asym :
  grows (bdr_current_density np_exp V bh bt asym).
Proof.
  unfold bdr_current_density. cbv zeta.
  repeat (apply grows_bind; [apply grows_ufunc1|intros ?]).
  apply grows_ufunc2.
Qed.

Lemma grows_call_simmons V params : grows (call (simmons_model np_exp) V params).
Proof.
  unfold call. destruct (Nat.eqb _ _); [|apply grows_raise].
  cbn [body simmons_model].
  destruct params as [|bh [|bt [|? ?]]];
    try apply grows_raise. apply grows_simmons.
Qed.

Lemma grows_call_bdr V params : grows (call (bdr_model np_exp) V params).
Proof.
  unfold call. destruct (Nat.eqb _ _); [|apply grows_raise].
  cbn [body bdr_model].
  destruct params as [|bh [|bt [|asym [|? ?]]]];
    try apply grows_raise. apply grows_bdr.
Qed.

Lemma frame_safe_simmons : frame_safe (simmons_model np_exp).
Proof. intros V params h. apply grows_preserves, grows_call_simmons. Qed.

Lemma frame_safe_bdr : frame_safe (bdr_model np_exp).
Proof. intros V params h. apply grows_preserves, grows_call_bdr. Qed.

End WithExp.

End ModelsRun.
Import ModelsRun.

(** ** The fitting functions, run *)

Module FittingRun.

(** [fit_model] is one call of the optimizer and nothing else: the
    optimizer's outcome and store are the fit's, whatever the arguments. *)
Lemma run_fit_model (curve_fit : optimizer) (V J : loc) (model : pyfunc)
      (p0 : list float) (h : heap) :
  let c := {| fc_f := model; fc_xdata := V; fc_ydata := J;
              fc_p0 := p0; fc_maxfev := 20000 |} in
  run curve_fit (fit_model V J model p0) h
  = (fst (curve_fit c h), snd (curve_fit c h), [c]).
Proof.
  cbv zeta. unfold fit_model. cbn [run].
  destruct (curve_fit _ h) as [[[popt pcov]|e] h']; reflexivity.
Qed.

(** The optimizer that stops where it starts writes to no array. *)
Lemma degenerate_fit_frame_safe : optimizer_frame_safe degenerate_fit.
Proof.
  intros c h Hf. unfold degenerate_fit, bind. cbv zeta.
  specialize (Hf (fc_xdata c) (fc_p0 c) h).
  destruct (call (fc_f c) (fc_xdata c) (fc_p0 c) h) as [[r|e] h'];
    exact Hf.
Qed.

End FittingRun.
Import FittingRun.

(** ** The reference exponential *)

Module ExpRef.

Lemma exp_ref_special : special_values exp_ref.
Proof. split; reflexivity. Qed.

End ExpRef.
Import ExpRef.

(** ** What a call of a model function returns *)

Module Returns.

Lemma returns_of_run (c : M loc) (h h' : heap) (out : ndarray) :
  c h = (Ok (length h'), h' ++ [out]) ->
  (exists mid, h' = h ++ mid) ->
  returns c h out.
Proof.
  intros E [mid ->]. exists (length (h ++ mid)), ((h ++ mid) ++ [out]).
  repeat split.
  - exact E.
  - apply lookup_new.
  - apply nth_error_None. rewrite length_app. lia.
  - rewrite <- app_assoc. apply preserves_app.
Qed.

Lemma returns_functional (c : M loc) (h : heap) (out out' : ndarray) :
  returns c h out -> returns c h out' -> out = out'.
Proof.
  intros (r & h1 & E & L & _) (r' & h1' & E' & L' & _).
  rewrite E in E'. injection E' as -> ->. congruence.
Qed.

End Returns.
Import Returns.

(** ** The code on concrete inputs *)

Module Examples.

Local Open Scope float_scope.

(** The scenario [V = [-1, -0.5, 0, 0.5, 1]], [h = 1], [s = 1]: five
    elements, the middle one zero. *)
Example simmons_scenario :
  exists j0 j1 j3 j4,
    nth_error
      (snd (simmons_current_density exp_ref 0%nat 1 1
              [[-1; -0.5; 0; 0.5; 1]])) 8
    = Some [j0; j1; 0; j3; j4]
    /\ (j0 <? 0) = true /\ (j1 <? 0) = true
    /\ (0 <? j3) = true /\ (0 <? j4) = true.
Proof.
  vm_compute. do 4 eexists. split; [reflexivity|].
  repeat split; reflexivity.
Qed.

Example simmons_empty :
  simmons_current_density exp_ref 0%nat 1 1 [[]]
  = (Ok 8%nat, [[]; []; []; []; []; []; []; []; []]).
Proof. reflexivity. Qed.

(** An array of another shape than [V] would not broadcast; the arrays
    the model multiplies have the shape of [V]. *)
Example broadcast_mismatch :
  ufunc2 mul 0%nat 1%nat [[1; 2]; [1; 2; 3]]
  = (Raise ValueError, [[1; 2]; [1; 2; 3]]).
Proof. reflexivity. Qed.

(** A wrong number of parameters is a [TypeError] of the call. *)
Example simmons_arity :
  call (simmons_model exp_ref) 0%nat [1; 1; 0] [[1; 2]]
  = (Raise TypeError, [[1; 2]]).
Proof. reflexivity. Qed.

(** An optimizer that gives up makes the fit raise its error; one that
    answers with an infinite covariance makes the fit return it. *)
Example fit_simmons_exhausted :
  outcome_of (run exhausted_fit (fit_simmons exp_ref 0%nat 1%nat)
                  [[-1; 0; 1]; [-0.5; 0; 0.5]])
  = Raise RuntimeError.
Proof. reflexivity. Qed.

Example fit_simmons_degenerate :
  outcome_of (run degenerate_fit (fit_simmons exp_ref 0%nat 1%nat)
                  [[0; 0; 0]; [0; 0; 0]])
  = Ok ([1; 1], [[infinity; infinity]; [infinity; infinity]]).
Proof. reflexivity. Qed.

End Examples.

(** ** The solver loop under a limit *)

Module SolverRun.

Section WithMethod.

Variable state : Type.
Variable m : method state.
Variable c : fit_call.

Lemma evaluate_count (f : pyfunc) (V : loc) (p : list float)
      (ps : list (list float)) (h : heap) :
  (1 <= fst (fst (evaluate f V (p :: ps) h)))%nat.
Proof.
  cbn [evaluate]. destruct ((r <- call f V p ;; get r)%py h) as [[ys|e] h'].
  - destruct (evaluate f V ps h') as [[n o] h'']. cbn [fst]. lia.
  - cbn [fst]. lia.
Qed.

(** A state that has stopped stays as it is. *)
Lemma iteration_stopped (limit : option nat) (p : progress state) :
  (forall s, p_status p <> Running s) -> iteration m limit c p = p.
Proof.
  intros H. unfold iteration. destruct (p_status p) as [s|r|e];
    [now destruct (H s)|reflexivity|reflexivity].
Qed.

(** An iteration evaluates the model. *)
Lemma iteration_counts (limit : option nat) (p : progress state) (s : state) :
  p_status p = Running s ->
  (p_nfev p < p_nfev (iteration m limit c p))%nat.
Proof.
  intros H. unfold iteration. rewrite H.
  pose proof (evaluate_count (fc_f c) (fc_xdata c) (fst (points m s))
                             (snd (points m s)) (p_store p)) as E.
  destruct (evaluate _ _ _ _) as [[n o] h']. cbn [fst] in E.
  cbn [p_nfev]. lia.
Qed.

(** After an iteration the loop goes on only below the limit. *)
Lemma iteration_below_limit (L : nat) (p : progress state) (s s' : state) :
  p_status p = Running s ->
  p_status (iteration m (Some L) c p) = Running s' ->
  (p_nfev (iteration m (Some L) c p) < L)%nat.
Proof.
  intros H. unfold iteration. rewrite H.
  destruct (evaluate _ _ _ _) as [[n o] h']. cbn [p_nfev p_status].
  destruct o as [values|e]; [|discriminate].
  destruct (update m s values) as [s1|r]; [|discriminate].
  unfold reached. destruct (Nat.leb_spec L (p_nfev p + n));
    [discriminate|intros _; assumption].
Qed.

(** Under a limit the loop stops: as many iterations as the limit leaves
    evaluations are enough. *)
Lemma solve_stops (L : nat) :
  forall (fuel : nat) (p : progress state),
    (forall s, p_status p = Running s -> (p_nfev p < L)%nat) ->
    (L - p_nfev p <= fuel)%nat ->
    exists q,
      solve m (Some L) c fuel p = Some q
      /\ (forall s, p_status q <> Running s).
Proof.
  induction fuel as [|fuel IH]; intros p Hp Hf.
  - cbn [solve]. destruct (p_status p) as [s|r|e] eqn:E.
    + specialize (Hp s eq_refl). lia.
    + exists p. rewrite E. split; [reflexivity|discriminate].
    + exists p. rewrite E. split; [reflexivity|discriminate].
  - cbn [solve]. destruct (p_status p) as [s|r|e] eqn:E.
    + pose proof (iteration_counts (Some L) p s E) as Hn.
      apply IH.
      * intros s' E'. exact (iteration_below_limit L p s s' E E').
      * specialize (Hp s eq_refl). lia.
    + exists p. rewrite E. split; [reflexivity|discriminate].
    + exists p. rewrite E. split; [reflexivity|discriminate].
Qed.

(** While the loop runs, every iteration so far has evaluated the model,
    and the limit is not reached. *)
Lemma running_below_limit (L : nat) (h : heap) :
  (0 < L)%nat ->
  forall (n : nat) (s : state),
    p_status (Nat.iter n (iteration m (Some L) c) (begin m c h)) = Running s ->
    (n <= p_nfev (Nat.iter n (iteration m (Some L) c) (begin m c h)) < L)%nat.
Proof.
  intros HL. induction n as [|n IH]; intros s E.
  - cbn in *. lia.
  - rewrite Nat.iter_succ in *.
    set (p := Nat.iter n (iteration m (Some L) c) (begin m c h)) in *.
    destruct (p_status p) as [s0|r|e] eqn:Ep.
    + pose proof (iteration_counts (Some L) p s0 Ep) as Hn.
      pose proof (iteration_below_limit L p s0 s Ep E) as Hl.
      specialize (IH s0 eq_refl). lia.
    + rewrite iteration_stopped in E by (rewrite Ep; discriminate).
      congruence.
    + rewrite iteration_stopped in E by (rewrite Ep; discriminate).
      congruence.
Qed.

(** [curve_fit] with an iterative method returns what the loop has
    stopped at. *)
Lemma iterative_fit_stops (h : heap) :
  (0 < fc_maxfev c)%Z ->
  exists q,
    solve m (Some (Z.to_nat (fc_maxfev c))) c (Z.to_nat (fc_maxfev c))
          (begin m c h) = Some q
    /\ (forall s, p_status q <> Running s)
    /\ iterative_fit m c h = (finish q, p_store q).
Proof.
  intros Hc.
  destruct (solve_stops (Z.to_nat (fc_maxfev c)) (Z.to_nat (fc_maxfev c))
                        (begin m c h)) as (q & Eq & Hq).
  - intros s _. cbn [begin p_nfev]. lia.
  - cbn [begin p_nfev]. lia.
  - exists q. split; [exact Eq|split; [exact Hq|]].
    unfold iterative_fit. cbv zeta. now rewrite Eq.
Qed.

End WithMethod.

(** Without a limit the loop need not stop: the method that never
    converges, on the Simmons model over an array that exists, is still
    running after any number of iterations. *)
Lemma restless_never_stops (np_exp : float -> float) (V J : loc)
      (vs : ndarray) (maxfev : Z) :
  let c := {| fc_f := simmons_model np_exp; fc_xdata := V; fc_ydata := J;
              fc_p0 := [1.0; 1.0]%float; fc_maxfev := maxfev |} in
  forall (fuel : nat) (p : progress (list float)),
    nth_error (p_store p) V = Some vs ->
    p_status p = Running [1.0; 1.0]%float ->
    solve restless None c fuel p = None.
Proof.
  intros c. induction fuel as [|fuel IH]; intros p HV Hs.
  - cbn [solve]. now rewrite Hs.
  - cbn [solve]. rewrite Hs. apply IH.
    + unfold iteration. rewrite Hs.
      cbn [restless points fst snd evaluate c fc_f fc_xdata].
      unfold bind at 1.
      change (call (simmons_model np_exp) V [1.0; 1.0]%float)
        with (simmons_current_density np_exp V 1.0 1.0).
      destruct (simmons_run np_exp (p_store p) V vs 1.0 1.0 HV)
        as (h' & E & mid & Hmid).
      rewrite E. unfold get. rewrite lookup_new. cbn [p_store].
      apply lookup_old. subst h'. now apply preserves_app.
    + unfold iteration. rewrite Hs.
      cbn [restless points fst snd evaluate c fc_f fc_xdata].
      unfold bind at 1.
      change (call (simmons_model np_exp) V [1.0; 1.0]%float)
        with (simmons_current_density np_exp V 1.0 1.0).
      destruct (simmons_run np_exp (p_store p) V vs 1.0 1.0 HV)
        as (h' & E & mid & Hmid).
      rewrite E. unfold get. rewrite lookup_new. reflexivity.
Qed.

End SolverRun.
Import SolverRun.

(** * The claims *)

(** ** The model library *)

Section ModelClaims.

Local Open Scope float_scope.

(** Whatever [np.exp] does elsewhere, if it sends NaN to NaN then the
    Simmons current at [v = 0], [h = 0], [s = 1e308] is NaN: [-B * s]
    overflows to [-inf], and [-inf * sqrt(0)] is NaN. *)
Lemma simmons_nan_at_zero_voltage (np_exp : float -> float) :
  special_values np_exp -> simmons_formula np_exp 0 1e308 0 = nan.
Proof.
  intros E. unfold simmons_formula, exp_factor, simmons_effective.
  change (- 10.0 * 1e308 * sqrt (np_maximum (0 - 0 / 2) 0)) with nan.
  rewrite (exp_nan _ E). reflexivity.
Qed.


(** C1, as stated, fails: with [barrier_height = 0] and
    [barrier_thickness = 1e308], both finite, the element at [v = 0] is
    NaN, not 0. *)
Lemma C1_zero_voltage_gives_nan : ~ simmons_zero_at_zero.
Proof.
  intros H.
  destruct (H exp_ref exp_ref_special [[0]] 0%nat [0] 0 1e308
              eq_refl eq_refl eq_refl) as (r & h' & out & E & L & Z).
  destruct (simmons_run exp_ref [[0]] 0%nat [0] 0 1e308 eq_refl)
    as (h1 & E1 & _).
  rewrite E1 in E. injection E as <- <-.
  rewrite lookup_new in L. injection L as <-.
  specialize (Z 0%nat 0 (simmons_formula exp_ref 0 1e308 0)
                eq_refl eq_refl eq_refl).
  rewrite (simmons_nan_at_zero_voltage _ exp_ref_special) in Z.
  discriminate Z.
Qed.

(** C1 (as amended).  On every voltage array, the empty one included,
    [simmons_current_density(V, h, s)] returns a fresh array that holds,
    sample by sample, [A * v * exp(-B * s * sqrt(max(h - v/2, 0)))] with
    [A = 1e5] and [B = 10.0], in binary64 and in the order of the source,
    and leaves every array of the caller as it was.  At [v = 0] the element
    is zero when the exponential factor is a finite number and NaN when it
    is not. *)
Theorem C1_simmons_elementwise :
  forall (np_exp : float -> float) (h : heap) (V : loc) (vs : ndarray)
         (bh bt : float),
    nth_error h V = Some vs ->
    returns (simmons_current_density np_exp V bh bt) h
      (map (fun v =>
              1e5 * v * np_exp (- 10.0 * bt * sqrt (np_maximum (bh - v / 2.0) 0)))
           vs)
    /\ (vs = [] -> returns (simmons_current_density np_exp V bh bt) h [])
    /\ forall v, is_zero v = true ->
         let e := np_exp (- 10.0 * bt * sqrt (np_maximum (bh - v / 2.0) 0)) in
         (is_finite e = true -> is_zero (1e5 * v * e) = true)
         /\ (is_finite e = false -> 1e5 * v * e = nan).
Proof.
  intros np_exp h V vs bh bt HV.
  assert (R : returns (simmons_current_density np_exp V bh bt) h
                      (map (simmons_formula np_exp bh bt) vs)).
  { destruct (simmons_run np_exp h V vs bh bt HV) as (h' & E & Hmid).
    exact (returns_of_run _ _ _ _ E Hmid). }
  split; [exact R|split].
  - intros ->. exact R.
  - intros v Hv e.
    assert (Hz : 1e5 * v = zero \/ 1e5 * v = neg_zero)
      by (apply is_zero_cases in Hv; destruct Hv as [->| ->];
          [left|right]; reflexivity).
    split; intros He.
    + apply is_zero_cases. now apply mul_zero_l.
    + now apply mul_zero_l_not_finite.
Qed.

Lemma C1_simmons_elementwise_witness :
  nth_error [[-1; -0.5; 0; 0.5; 1]] 0%nat = Some [-1; -0.5; 0; 0.5; 1]
  /\ returns (simmons_current_density exp_ref 0%nat 1 1)
       [[-1; -0.5; 0; 0.5; 1]]
       (map (fun v =>
               1e5 * v * exp_ref (- 10.0 * 1 * sqrt (np_maximum (1 - v / 2.0) 0)))
            [-1; -0.5; 0; 0.5; 1]).
Proof.
  split; [reflexivity|].
  exact (proj1 (C1_simmons_elementwise exp_ref [[-1; -0.5; 0; 0.5; 1]] 0%nat
                  [-1; -0.5; 0; 0.5; 1] 1 1 eq_refl)).
Defined.

(** C2.  On every voltage array [bdr_current_density(V, h, s, a)] returns
    a fresh array that holds, sample by sample,
    [A * v * exp(-B * s * sqrt(max(h + a*v, 0)))] with [A = 1e5] and
    [B = 10.0], in binary64 and in the order of the source. *)
Theorem C2_bdr_elementwise :
  forall (np_exp : float -> float) (h : heap) (V : loc) (vs : ndarray)
         (bh bt asym : float),
    nth_error h V = Some vs ->
    returns (bdr_current_density np_exp V bh bt asym) h
      (map (fun v =>
              1e5 * v
              * np_exp (- 10.0 * bt * sqrt (np_maximum (bh + asym * v) 0)))
           vs).
Proof.
  intros np_exp h V vs bh bt asym HV.
  destruct (bdr_run np_exp h V vs bh bt asym HV) as (h' & E & Hmid).
  exact (returns_of_run _ _ _ _ E Hmid).
Qed.

Lemma C2_bdr_elementwise_witness :
  nth_error [[-1; -0.5; 0; 0.5; 1]] 0%nat = Some [-1; -0.5; 0; 0.5; 1]
  /\ returns (bdr_current_density exp_ref 0%nat 1 1 0.25)
       [[-1; -0.5; 0; 0.5; 1]]
       (map (fun v =>
               1e5 * v
               * exp_ref (- 10.0 * 1 * sqrt (np_maximum (1 + 0.25 * v) 0)))
            [-1; -0.5; 0; 0.5; 1]).
Proof.
  split; [reflexivity|].
  exact (C2_bdr_elementwise exp_ref [[-1; -0.5; 0; 0.5; 1]] 0%nat
           [-1; -0.5; 0; 0.5; 1] 1 1 0.25 eq_refl).
Defined.

(** C10.  With the asymmetry fixed at [-0.5] the BDR model is the Simmons
    model: on every voltage array the two calls return arrays that are
    equal element for element, for all doubles [h] and [s] (the finite
    ones included). *)
Theorem C10_bdr_at_neg_half_is_simmons :
  forall (np_exp : float -> float) (h : heap) (V : loc) (vs : ndarray)
         (bh bt : float),
    nth_error h V = Some vs ->
    exists out,
      returns (bdr_current_density np_exp V bh bt (-0.5)) h out
      /\ returns (simmons_current_density np_exp V bh bt) h out
      /\ length out = length vs
      /\ forall v, bdr_formula np_exp bh bt (-0.5) v
                   = simmons_formula np_exp bh bt v.
Proof.
  intros np_exp h V vs bh bt HV.
  assert (F : forall v, bdr_formula np_exp bh bt (-0.5) v
                        = simmons_formula np_exp bh bt v).
  { intros v. unfold bdr_formula, simmons_formula, bdr_effective,
      simmons_effective. now rewrite bdr_barrier_at_neg_half. }
  exists (map (simmons_formula np_exp bh bt) vs). repeat split.
  - destruct (bdr_run np_exp h V vs bh bt (-0.5) HV) as (h' & E & Hmid).
    rewrite (map_ext _ _ F) in E.
    exact (returns_of_run _ _ _ _ E Hmid).
  - destruct (simmons_run np_exp h V vs bh bt HV) as (h' & E & Hmid).
    exact (returns_of_run _ _ _ _ E Hmid).
  - apply length_map.
  - exact F.
Qed.

Lemma C10_bdr_at_neg_half_is_simmons_witness :
  nth_error [[-1; -0.5; 0; 0.5; 1]] 0%nat = Some [-1; -0.5; 0; 0.5; 1]
  /\ exists out,
      returns (bdr_current_density exp_ref 0%nat 1 1 (-0.5))
              [[-1; -0.5; 0; 0.5; 1]] out
      /\ returns (simmons_current_density exp_ref 0%nat 1 1)
                 [[-1; -0.5; 0; 0.5; 1]] out
      /\ length out = length [-1; -0.5; 0; 0.5; 1]
      /\ forall v, bdr_formula exp_ref 1 1 (-0.5) v
                   = simmons_formula exp_ref 1 1 v.
Proof.
  split; [reflexivity|].
  exact (C10_bdr_at_neg_half_is_simmons exp_ref [[-1; -0.5; 0; 0.5; 1]] 0%nat
           [-1; -0.5; 0; 0.5; 1] 1 1 eq_refl).
Defined.

End ModelClaims.

Section ClampClaim.

Local Open Scope float_scope.




End ClampClaim.

(** ** The fitting engine *)

Section FittingClaims.

Local Open Scope float_scope.

(** C3, as stated, fails: with [len(V) = 1] and [len(J) = 2] the fit is
    attempted, for every optimizer: [curve_fit] is called. *)
Lemma C3_mismatch_reaches_optimizer : ~ rejects_dimension_mismatch.
Proof.
  intros H.
  specialize (H degenerate_fit [[1]; [1; 2]] 0%nat 1%nat [1] [1; 2]
                (simmons_model exp_ref) [1; 1] eq_refl eq_refl).
  rewrite run_fit_model in H.
  assert (D : length [1] <> length [1; 2] \/
              length [1; 1] <> nparams (simmons_model exp_ref))
    by (left; discriminate).
  specialize (H D). discriminate H.
Qed.

(** C3 (as amended).  [fit_model] checks neither the lengths of [V] and
    [J] nor the length of the initial guess: also when they do not match
    it calls [curve_fit] once, with the arguments as given and
    [maxfev = 20000], and ends as that call ends.  It raises no error of
    its own; an initial guess of the wrong length makes every evaluation
    of the model at it a [TypeError] of the call. *)
Theorem C3_mismatch_is_left_to_optimizer :
  forall (curve_fit : optimizer) (h : heap) (V J : loc) (xs ys : ndarray)
         (model : pyfunc) (p0 : list float),
    nth_error h V = Some xs ->
    nth_error h J = Some ys ->
    length xs <> length ys \/ length p0 <> nparams model ->
    let c := {| fc_f := model; fc_xdata := V; fc_ydata := J;
                fc_p0 := p0; fc_maxfev := 20000 |} in
    calls_of (run curve_fit (fit_model V J model p0) h) = [c]
    /\ outcome_of (run curve_fit (fit_model V J model p0) h)
       = fst (curve_fit c h)
    /\ heap_of (run curve_fit (fit_model V J model p0) h)
       = snd (curve_fit c h)
    /\ (length p0 <> nparams model ->
        forall h0, call model V p0 h0 = (Raise TypeError, h0)).
Proof.
  intros curve_fit h V J xs ys model p0 _ _ _ c.
  rewrite run_fit_model. repeat split.
  intros Hn h0. unfold call.
  destruct (Nat.eqb_spec (length p0) (nparams model)) as [E|_];
    [contradiction|reflexivity].
Qed.

Lemma C3_mismatch_is_left_to_optimizer_witness :
  (length [1] <> length [1; 2]
   \/ length [1; 1] <> nparams (simmons_model exp_ref))
  /\ calls_of (run degenerate_fit
                   (fit_model 0%nat 1%nat (simmons_model exp_ref) [1; 1])
                   [[1]; [1; 2]])
     = [{| fc_f := simmons_model exp_ref; fc_xdata := 0%nat;
           fc_ydata := 1%nat; fc_p0 := [1; 1]; fc_maxfev := 20000 |}].
Proof.
  assert (D : length [1] <> length [1; 2]
              \/ length [1; 1] <> nparams (simmons_model exp_ref))
    by (left; cbn; lia).
  split; [exact D|].
  exact (proj1 (C3_mismatch_is_left_to_optimizer degenerate_fit [[1]; [1; 2]]
                  0%nat 1%nat [1] [1; 2] (simmons_model exp_ref) [1; 1]
                  eq_refl eq_refl D)).
Defined.

(** C4, as stated, fails: with one data point and the two parameters of
    the Simmons model [curve_fit] is called all the same. *)
Lemma C4_underdetermined_reaches_optimizer : ~ rejects_underdetermined.
Proof.
  intros H.
  specialize (H degenerate_fit [[1]; [2]] 0%nat 1%nat [1] [2]
                (simmons_model exp_ref) [1; 1] eq_refl eq_refl).
  rewrite run_fit_model in H.
  assert (D : (length [1] < nparams (simmons_model exp_ref))%nat)
    by (cbn; lia).
  specialize (H D). discriminate H.
Qed.

(** C4 (as amended).  [fit_model] does not compare the number of data
    points with the number of parameters: with fewer points than
    parameters it calls [curve_fit] once, with the arguments as given, and
    ends as that call ends; an error for the underdetermined problem is
    the optimizer's to raise. *)
Theorem C4_underdetermined_is_left_to_optimizer :
  forall (curve_fit : optimizer) (h : heap) (V J : loc) (xs ys : ndarray)
         (model : pyfunc) (p0 : list float),
    nth_error h V = Some xs ->
    nth_error h J = Some ys ->
    (length xs < nparams model)%nat ->
    let c := {| fc_f := model; fc_xdata := V; fc_ydata := J;
                fc_p0 := p0; fc_maxfev := 20000 |} in
    run curve_fit (fit_model V J model p0) h
    = (fst (curve_fit c h), snd (curve_fit c h), [c]).
Proof.
  intros curve_fit h V J xs ys model p0 _ _ _ c. apply run_fit_model.
Qed.

Lemma C4_underdetermined_is_left_to_optimizer_witness :
  (length [1] < nparams (simmons_model exp_ref))%nat
  /\ calls_of (run degenerate_fit
                   (fit_model 0%nat 1%nat (simmons_model exp_ref) [1; 1])
                   [[1]; [2]])
     = [{| fc_f := simmons_model exp_ref; fc_xdata := 0%nat;
           fc_ydata := 1%nat; fc_p0 := [1; 1]; fc_maxfev := 20000 |}].
Proof.
  assert (D : (length [1] < nparams (simmons_model exp_ref))%nat)
    by (cbn; lia).
  split; [exact D|].
  exact (f_equal snd
           (C4_underdetermined_is_left_to_optimizer degenerate_fit
              [[1]; [2]] 0%nat 1%nat [1] [2] (simmons_model exp_ref) [1; 1]
              eq_refl eq_refl D)).
Defined.

(** C5, as stated, fails: when the optimizer answers with a covariance
    filled with [inf] (here on [V = J = [0, 0, 0]], where the Simmons
    model does not depend on its parameters), [fit_simmons] returns that
    answer and raises nothing. *)
Lemma C5_singular_fit_returns_inf : ~ reports_nonconvergence.
Proof.
  intros H.
  destruct (H degenerate_fit [[0; 0; 0]; [0; 0; 0]] 0%nat 1%nat
              (simmons_model exp_ref) [1; 1] eq_refl) as [e He].
  rewrite run_fit_model in He. discriminate He.
Qed.

(** C5 (as amended).  [fit_model] hands on what the optimizer does: an
    exception of [curve_fit] leaves [fit_model] unchanged and no
    parameter vector is returned with it; a result of [curve_fit] is
    returned as it is, entries that are not finite included. *)
Theorem C5_optimizer_outcome_is_handed_on :
  forall (curve_fit : optimizer) (h : heap) (V J : loc) (model : pyfunc)
         (p0 : list float),
    let c := {| fc_f := model; fc_xdata := V; fc_ydata := J;
                fc_p0 := p0; fc_maxfev := 20000 |} in
    match fst (curve_fit c h) with
    | Raise e =>
        outcome_of (run curve_fit (fit_model V J model p0) h) = Raise e
    | Ok (popt, pcov) =>
        outcome_of (run curve_fit (fit_model V J model p0) h)
        = Ok (popt, pcov)
    end.
Proof.
  intros curve_fit h V J model p0 c. rewrite run_fit_model.
  unfold outcome_of. cbn [fst]. fold c.
  destruct (fst (curve_fit c h)) as [[popt pcov]|e]; reflexivity.
Qed.

(** C7.  [fit_simmons(V, J)] is [fit_model(V, J, simmons_current_density,
    (1.0, 1.0))] and [fit_bdr(V, J)] is [fit_model(V, J,
    bdr_current_density, (1.0, 1.0, 0.0))]: the same code, hence the same
    single optimizer call and the same outcome against every optimizer. *)
Theorem C7_wrappers_delegate :
  forall (np_exp : float -> float) (V J : loc),
    fit_simmons np_exp V J
    = fit_model V J (simmons_model np_exp) [1.0; 1.0]
    /\ fit_bdr np_exp V J
       = fit_model V J (bdr_model np_exp) [1.0; 1.0; 0.0]
    /\ forall (curve_fit : optimizer) (h : heap),
        calls_of (run curve_fit (fit_simmons np_exp V J) h)
        = [{| fc_f := simmons_model np_exp; fc_xdata := V; fc_ydata := J;
              fc_p0 := [1.0; 1.0]; fc_maxfev := 20000 |}]
        /\ calls_of (run curve_fit (fit_bdr np_exp V J) h)
           = [{| fc_f := bdr_model np_exp; fc_xdata := V; fc_ydata := J;
                 fc_p0 := [1.0; 1.0; 0.0]; fc_maxfev := 20000 |}]
        /\ run curve_fit (fit_simmons np_exp V J) h
           = run curve_fit
                 (fit_model V J (simmons_model np_exp) [1.0; 1.0]) h
        /\ run curve_fit (fit_bdr np_exp V J) h
           = run curve_fit
                 (fit_model V J (bdr_model np_exp) [1.0; 1.0; 0.0]) h.
Proof.
  intros np_exp V J. split; [reflexivity|split; [reflexivity|]].
  intros curve_fit h. unfold fit_simmons, fit_bdr. cbv zeta.
  rewrite !run_fit_model. repeat split.
Qed.

(** C8.  [fit_model] is one optimizer call followed by a return: it has
    no loop of its own, and every run of it (and so of [fit_simmons] and
    [fit_bdr], which are [fit_model] at their model and initial guess)
    makes exactly that one call, which carries the evaluation cap
    [maxfev = 20000].  Under that cap the loop of an iterative solver
    stops, whatever its method, the model and the data: 20000 iterations
    are enough for it to have converged or failed, the fit returns what
    the loop stopped at, and while the loop runs fewer than 20000
    evaluations have been made, at least one in every iteration. *)
Theorem C8_evaluation_cap :
  forall (state : Type) (m : method state) (curve_fit : optimizer)
         (np_exp : float -> float) (h : heap) (V J : loc) (model : pyfunc)
         (p0 : list float),
    let the_call := {| fc_f := model; fc_xdata := V; fc_ydata := J;
                       fc_p0 := p0; fc_maxfev := 20000 |} in
    let cap := Z.to_nat 20000 in
    (exists c k,
        fit_model V J model p0 = CurveFit c k
        /\ fc_maxfev c = 20000%Z /\ (forall r, k r = Return r))
    /\ (calls_of (run curve_fit (fit_model V J model p0) h) = [the_call]
        /\ (20000 <= fc_maxfev the_call)%Z)
    /\ fit_simmons np_exp V J
       = fit_model V J (simmons_model np_exp) [1.0; 1.0]
    /\ fit_bdr np_exp V J
       = fit_model V J (bdr_model np_exp) [1.0; 1.0; 0.0]
    /\ (exists c,
           calls_of (run curve_fit (fit_simmons np_exp V J) h) = [c]
           /\ fc_maxfev c = 20000%Z /\ (20000 <= fc_maxfev c)%Z)
    /\ (exists c,
           calls_of (run curve_fit (fit_bdr np_exp V J) h) = [c]
           /\ fc_maxfev c = 20000%Z /\ (20000 <= fc_maxfev c)%Z)
    /\ (exists q,
           solve m (Some cap) the_call cap (begin m the_call h) = Some q
           /\ (forall s, p_status q <> Running s)
           /\ run (iterative_fit m) (fit_model V J model p0) h
              = (finish q, p_store q, [the_call]))
    /\ (forall (n : nat) (s : state),
           p_status (Nat.iter n (iteration m (Some cap) the_call)
                              (begin m the_call h)) = Running s ->
           (n <= p_nfev (Nat.iter n (iteration m (Some cap) the_call)
                                  (begin m the_call h)) < cap)%nat).
Proof.
  intros state m curve_fit np_exp h V J model p0 the_call cap.
  split.
  { do 2 eexists. split; [reflexivity|split; [reflexivity|]].
    intros [popt pcov]. reflexivity. }
  split.
  { rewrite run_fit_model. split; [reflexivity|]. cbn [fc_maxfev the_call].
    lia. }
  split; [reflexivity|]. split; [reflexivity|].
  split.
  { unfold fit_simmons. cbv zeta. rewrite run_fit_model.
    eexists. split; [reflexivity|split; [reflexivity|]].
    cbn [fc_maxfev]. lia. }
  split.
  { unfold fit_bdr. cbv zeta. rewrite run_fit_model.
    eexists. split; [reflexivity|split; [reflexivity|]].
    cbn [fc_maxfev]. lia. }
  split.
  { destruct (iterative_fit_stops state m the_call h) as (q & Eq & Hq & Ef).
    - cbn [fc_maxfev the_call]. lia.
    - exists q. split; [exact Eq|split; [exact Hq|]].
      rewrite run_fit_model. fold the_call. now rewrite Ef. }
  apply running_below_limit. unfold cap. lia.
Qed.

End FittingClaims.

Section FrameClaim.

Local Open Scope float_scope.

(** C9.  Against an optimizer that writes to none of the caller's arrays
    (as long as the model it evaluates writes to none), [fit_model] with
    such a model, [fit_simmons] and [fit_bdr] leave [V] and [J], and every
    other array of the caller, element for element as they were, whether
    the fit returns or raises; and the two model functions write to no
    array of the caller, the voltage array included. *)
Theorem C9_inputs_are_not_mutated :
  forall (curve_fit : optimizer) (np_exp : float -> float),
    optimizer_frame_safe curve_fit ->
    forall (h : heap) (V J : loc) (xs ys : ndarray),
      nth_error h V = Some xs ->
      nth_error h J = Some ys ->
      (forall (model : pyfunc) (p0 : list float),
          frame_safe model ->
          let h' := heap_of (run curve_fit (fit_model V J model p0) h) in
          preserves h h'
          /\ nth_error h' V = Some xs /\ nth_error h' J = Some ys)
      /\ (let h' := heap_of (run curve_fit (fit_simmons np_exp V J) h) in
          preserves h h'
          /\ nth_error h' V = Some xs /\ nth_error h' J = Some ys)
      /\ (let h' := heap_of (run curve_fit (fit_bdr np_exp V J) h) in
          preserves h h'
          /\ nth_error h' V = Some xs /\ nth_error h' J = Some ys)
      /\ (forall bh bt : float,
             let h' := snd (simmons_current_density np_exp V bh bt h) in
             preserves h h' /\ nth_error h' V = Some xs)
      /\ (forall bh bt asym : float,
             let h' := snd (bdr_current_density np_exp V bh bt asym h) in
             preserves h h' /\ nth_error h' V = Some xs).
Proof.
  intros curve_fit np_exp Hcf h V J xs ys HV HJ.
  assert (Fit : forall model p0,
             frame_safe model ->
             preserves h (heap_of (run curve_fit (fit_model V J model p0) h))).
  { intros model p0 Hm. rewrite run_fit_model. unfold heap_of. cbn [fst snd].
    apply Hcf. exact Hm. }
  split; [|split; [|split; [|split]]].
  - intros model p0 Hm h'. pose proof (Fit model p0 Hm) as P.
    split; [exact P|split; apply P; assumption].
  - intros h'. pose proof (Fit _ [1.0; 1.0] (frame_safe_simmons np_exp)) as P.
    split; [exact P|split; apply P; assumption].
  - intros h'.
    pose proof (Fit _ [1.0; 1.0; 0.0] (frame_safe_bdr np_exp)) as P.
    split; [exact P|split; apply P; assumption].
  - intros bh bt h'.
    pose proof (grows_preserves _ (grows_simmons np_exp V bh bt) h) as P.
    split; [exact P|apply P; assumption].
  - intros bh bt asym h'.
    pose proof (grows_preserves _ (grows_bdr np_exp V bh bt asym) h) as P.
    split; [exact P|apply P; assumption].
Qed.

Lemma C9_inputs_are_not_mutated_witness :
  optimizer_frame_safe degenerate_fit
  /\ nth_error [[-1; 0; 1]; [-0.5; 0; 0.5]] 0%nat = Some [-1; 0; 1]
  /\ nth_error [[-1; 0; 1]; [-0.5; 0; 0.5]] 1%nat = Some [-0.5; 0; 0.5]
  /\ (let h' := heap_of (run degenerate_fit (fit_simmons exp_ref 0%nat 1%nat)
                             [[-1; 0; 1]; [-0.5; 0; 0.5]]) in
      preserves [[-1; 0; 1]; [-0.5; 0; 0.5]] h'
      /\ nth_error h' 0%nat = Some [-1; 0; 1]
      /\ nth_error h' 1%nat = Some [-0.5; 0; 0.5]).
Proof.
  split; [exact degenerate_fit_frame_safe|].
  split; [reflexivity|]. split; [reflexivity|].
  exact (proj1 (proj2 (C9_inputs_are_not_mutated degenerate_fit exp_ref
                         degenerate_fit_frame_safe
                         [[-1; 0; 1]; [-0.5; 0; 0.5]] 0%nat 1%nat
                         [-1; 0; 1] [-0.5; 0; 0.5] eq_refl eq_refl))).
Defined.

End FrameClaim.

(** * Further properties of the code *)

(** ** Signs and finiteness in binary64 *)

Module F64Sign.

Lemma SFmul_finite_inv x y :
  SFis_finite (SF64mul x y) = true ->
  SFis_finite x = true /\ SFis_finite y = true.
Proof.
  destruct x as [sx|sx| |sx mx ex], y as [sy|sy| |sy my ey];
    cbn [SF64mul SFmul SFis_finite]; try easy.
Qed.

(** A finite product has finite factors: multiplication hides neither an
    infinity nor a NaN. *)
Lemma mul_finite_inv x y :
  is_finite (x * y)%float = true ->
  is_finite x = true /\ is_finite y = true.
Proof. rewrite !is_finite_spec, mul_spec. apply SFmul_finite_inv. Qed.

(** A sum with a zero is the other term, when that one is finite and not
    a zero. *)
Lemma add_zero_r h z :
  is_finite h = true -> is_zero h = false ->
  z = zero \/ z = neg_zero -> (h + z)%float = h.
Proof.
  rewrite is_finite_spec, is_zero_spec. intros Hf Hz Z.
  apply Prim2SF_inj. rewrite add_spec.
  destruct (zero_cases_SF z Z) as [s ->].
  destruct (Prim2SF h); try discriminate. reflexivity.
Qed.

(** What is rounded from a non-negative mantissa carries the sign it was
    given. *)
Definition SFsigned (s : bool) (a : spec_float) : Prop :=
  match a with
  | S754_zero s' | S754_infinity s' | S754_finite s' _ _ => s' = s
  | S754_nan => False
  end.

Lemma binary_round_aux_signed s m e l :
  (0 <= m)%Z -> SFsigned s (binary_round_aux prec emax s m e l).
Proof.
  intros H. pose proof (binary_round_aux_not_nan s m e l H) as N.
  revert N. unfold binary_round_aux.
  destruct (shr_fexp prec emax m e l) as [mrs' e'].
  destruct (shr_fexp prec emax _ e' loc_Exact) as [mrs'' e''].
  destruct (shr_m mrs'') as [|p|p]; try easy.
  destruct (e'' <=? emax - prec)%Z; easy.
Qed.

Lemma SFleb_zero_signed a :
  SFsigned false a -> SFleb (S754_zero false) a = true.
Proof. destruct a as [s|s| |s m e]; cbn; try easy; intros ->; reflexivity. Qed.

Lemma SFleb_signed_zero a :
  SFsigned true a -> SFleb a (S754_zero false) = true.
Proof. destruct a as [s|s| |s m e]; cbn; try easy; intros ->; reflexivity. Qed.

(** Not above zero, and not NaN: a zero, or negative. *)
Lemma SFleb_zero_cases a :
  SFleb a (S754_zero false) = true -> SFis_zero a = true \/ SFsigned true a.
Proof.
  destruct a as [s|s| |s m e]; cbn; try easy; auto;
    destruct s; try easy; auto.
Qed.

Lemma SFzero_leb_cases a :
  SFleb (S754_zero false) a = true -> SFis_zero a = true \/ SFsigned false a.
Proof.
  destruct a as [s|s| |s m e]; cbn; try easy; auto;
    destruct s; try easy; auto.
Qed.

(** Half of a number that is not above zero is not above zero. *)
Lemma SFhalf_nonpos x :
  SFis_finite x = true -> SFleb x (S754_zero false) = true ->
  SFleb (SF64div x SFtwo) (S754_zero false) = true.
Proof.
  intros F L. destruct (SFleb_zero_cases x L) as [Z|S].
  - destruct x; try discriminate. reflexivity.
  - destruct x as [s|s| |s m e]; try discriminate; cbn in S; subst s;
      [reflexivity|].
    apply SFleb_signed_zero. unfold SF64div, SFdiv, SFtwo, SFdiv_core_binary.
    cbv zeta.
    match goal with
    | |- context [IntDef.Z.div_eucl ?a ?b] =>
        pose proof (Z.div_pos a b) as Hq; unfold Z.div in Hq;
        change IntDef.Z.div_eucl with Z.div_eucl;
        destruct (Z.div_eucl a b) as [q r]; cbn [fst] in Hq;
        assert (Ha : (0 <= a)%Z)
    end.
    { match goal with
      | |- (0 <= match ?s with _ => _ end)%Z => destruct s
      end; try lia.
      change IntDef.Z.shiftl with Z.shiftl. apply Z.shiftl_nonneg. lia. }
    apply binary_round_aux_signed. apply Hq; [exact Ha|lia].
Qed.

(** A number that is not below zero, minus one that is not above zero, is
    not below zero: no rounding turns the difference negative. *)
Lemma SFsub_nonneg x y :
  SFis_finite x = true ->
  SFleb (S754_zero false) x = true -> SFleb y (S754_zero false) = true ->
  SFleb (S754_zero false) (SF64sub x y) = true.
Proof.
  intros F Lx Ly.
  destruct x as [sx|sx| |sx mx ex]; try discriminate;
    destruct y as [sy|sy| |sy my ey]; try discriminate;
    try (destruct sx, sy; easy).
  destruct sx; [discriminate|]. destruct sy; [|discriminate].
  apply SFleb_zero_signed. unfold SF64sub, SFsub, binary_normalize, binary_round.
  cbn [cond_Zopp].
  match goal with
  | |- context [(Z.pos ?a - - Z.pos ?b)%Z] =>
      destruct (Z.pos a - - Z.pos b)%Z as [|p|p] eqn:E; try lia
  end.
  clear E. destruct (shl_align p _ _) as [mz ez].
  apply binary_round_aux_signed. lia.
Qed.

Lemma sub_half_nonneg h v :
  is_finite h = true -> (0 <=? h)%float = true ->
  is_finite v = true -> (v <=? 0)%float = true ->
  (0 <=? h - v / 2)%float = true.
Proof.
  rewrite !is_finite_spec, !leb_spec, sub_spec, div_spec.
  change (Prim2SF 0) with (S754_zero false). change (Prim2SF 2) with SFtwo.
  intros Fh Lh Fv Lv. apply SFsub_nonneg; auto. now apply SFhalf_nonpos.
Qed.

End F64Sign.
Import F64Sign.

(** ** The model functions at the edges of their domain *)

Section ModelEdges.

Local Open Scope float_scope.

Variable np_exp : float -> float.

Lemma formula_finite_inv (e v : float) :
  is_finite (1e5 * v * e) = true -> is_finite v = true /\ is_finite e = true.
Proof.
  intros H. apply mul_finite_inv in H. destruct H as [H1 H2].
  apply mul_finite_inv in H1. tauto.
Qed.

(** X1.  A voltage sample that is NaN or infinite gives a current that is
    NaN or infinite, in both models, whatever the parameters and whatever
    [np.exp] computes: a bad sample is never turned into a finite number. *)
Theorem X1_nonfinite_voltage_is_not_masked :
  forall (h : heap) (V : loc) (vs : ndarray) (bh bt asym : float)
         (i : nat) (v : float),
    nth_error h V = Some vs ->
    nth_error vs i = Some v ->
    is_finite v = false ->
    exists out_s out_b js jb,
      returns (simmons_current_density np_exp V bh bt) h out_s
      /\ nth_error out_s i = Some js /\ is_finite js = false
      /\ returns (bdr_current_density np_exp V bh bt asym) h out_b
      /\ nth_error out_b i = Some jb /\ is_finite jb = false.
Proof.
  intros h V vs bh bt asym i v HV Hi Hv.
  destruct (simmons_run np_exp h V vs bh bt HV) as (hs & Es & Ms).
  destruct (bdr_run np_exp h V vs bh bt asym HV) as (hb & Eb & Mb).
  exists (map (simmons_formula np_exp bh bt) vs),
         (map (bdr_formula np_exp bh bt asym) vs),
         (simmons_formula np_exp bh bt v), (bdr_formula np_exp bh bt asym v).
  assert (N : forall e, is_finite (1e5 * v * e) = false).
  { intros e. destruct (is_finite (1e5 * v * e)) eqn:F; [|reflexivity].
    apply formula_finite_inv in F. destruct F as [F _]. congruence. }
  repeat split.
  - exact (returns_of_run _ _ _ _ Es Ms).
  - now apply map_nth_error.
  - apply N.
  - exact (returns_of_run _ _ _ _ Eb Mb).
  - now apply map_nth_error.
  - apply N.
Qed.

(** X2.  At asymmetry [0.0], the value [fit_bdr] starts from, the barrier
    of the BDR model does not depend on the voltage: for a finite barrier
    height other than zero and finite voltages, every sample is [A * v]
    times one and the same decay factor [exp(-B * s * sqrt(max(h, 0)))]. *)
Theorem X2_bdr_zero_asymmetry_has_constant_barrier :
  forall (h : heap) (V : loc) (vs : ndarray) (bh bt : float),
    nth_error h V = Some vs ->
    is_finite bh = true -> is_zero bh = false ->
    Forall (fun v => is_finite v = true) vs ->
    returns (bdr_current_density np_exp V bh bt 0.0) h
      (map (fun v =>
              1e5 * v * np_exp (- 10.0 * bt * sqrt (np_maximum bh 0)))
           vs).
Proof.
  intros h V vs bh bt HV Hf Hz Hvs.
  destruct (bdr_run np_exp h V vs bh bt 0 HV) as (h' & E & Hmid).
  replace (map (fun v => 1e5 * v * np_exp (- 10.0 * bt * sqrt (np_maximum bh 0)))
               vs)
    with (map (bdr_formula np_exp bh bt 0) vs).
  - exact (returns_of_run _ _ _ _ E Hmid).
  - apply map_ext_in. intros v Hin.
    rewrite Forall_forall in Hvs. specialize (Hvs v Hin).
    unfold bdr_formula, exp_factor, bdr_effective.
    rewrite (add_zero_r bh (0 * v) Hf Hz); [reflexivity|].
    apply mul_zero_l; [now left|exact Hvs].
Qed.

Lemma mul_nonfinite_zero c z :
  is_finite c = false -> z = zero \/ z = neg_zero -> c * z = nan.
Proof.
  rewrite is_finite_spec. intros Hc Hz. apply Prim2SF_inj. rewrite mul_spec.
  destruct (zero_cases_SF z Hz) as [s ->]. destruct (Prim2SF c); easy.
Qed.

(** The decay term does not see the sign of a zero barrier. *)
Lemma exp_factor_zero_sign s :
  special_values np_exp ->
  exp_factor np_exp s neg_zero = exp_factor np_exp s zero.
Proof.
  intros He. unfold exp_factor.
  change (sqrt neg_zero) with neg_zero. change (sqrt zero) with zero.
  destruct (is_finite (- 10.0 * s)) eqn:F.
  - rewrite !(exp_of_zero np_exp He); [reflexivity| |];
      apply mul_zero_r; auto.
  - rewrite !mul_nonfinite_zero; auto.
Qed.

Lemma eqb_same x : is_nan x = false -> (x =? x) = true.
Proof. unfold is_nan. destruct (x =? x); easy. Qed.

(** X3.  With a barrier height that is not negative, the clamp is never
    active at a voltage that is not positive: [h - v/2] is then not below
    zero in binary64 either, the clamped barrier is equal to it (they can
    differ in the sign of a zero, at [h = -0.0] and [v = 0.0]), and the
    Simmons current is the closed form without [max], for an [np.exp]
    with [exp(0.0) = exp(-0.0) = 1]. *)
Theorem X3_simmons_reverse_bias_is_unclamped :
  forall (h : heap) (V : loc) (vs : ndarray) (bh bt : float),
    special_values np_exp ->
    nth_error h V = Some vs ->
    is_finite bh = true -> (0 <=? bh) = true ->
    Forall (fun v => is_finite v = true /\ (v <=? 0) = true) vs ->
    Forall (fun v => (0 <=? bh - v / 2.0) = true
                     /\ (np_maximum (bh - v / 2.0) 0 =? bh - v / 2.0) = true
                     /\ (is_zero (bh - v / 2.0) = false ->
                         np_maximum (bh - v / 2.0) 0 = bh - v / 2.0)) vs
    /\ returns (simmons_current_density np_exp V bh bt) h
         (map (fun v => 1e5 * v * np_exp (- 10.0 * bt * sqrt (bh - v / 2.0)))
              vs).
Proof.
  intros h V vs bh bt He HV Hf Hp Hvs.
  assert (U : Forall (fun v => (0 <=? bh - v / 2.0) = true
                               /\ (np_maximum (bh - v / 2.0) 0
                                   = bh - v / 2.0
                                   \/ (bh - v / 2.0 = neg_zero
                                       /\ np_maximum (bh - v / 2.0) 0 = zero)))
                     vs).
  { eapply Forall_impl; [|exact Hvs]. intros v [Fv Lv]. cbv beta.
    pose proof (sub_half_nonneg bh v Hf Hp Fv Lv) as P.
    split; [exact P|now apply clamp_at_nonneg]. }
  split.
  - eapply Forall_impl; [|exact U]. intros v [P C]. cbv beta.
    split; [exact P|]. destruct C as [Ev|[Ex Ev]]; rewrite Ev.
    + split; [|reflexivity]. apply eqb_same. eapply leb_not_nan_r, P.
    + rewrite Ex. split; [reflexivity|discriminate].
  - destruct (simmons_run np_exp h V vs bh bt HV) as (h' & E & Hmid).
    replace (map (fun v => 1e5 * v
                           * np_exp (- 10.0 * bt * sqrt (bh - v / 2.0))) vs)
      with (map (simmons_formula np_exp bh bt) vs).
    + exact (returns_of_run _ _ _ _ E Hmid).
    + apply map_ext_in. intros v Hin.
      rewrite Forall_forall in U. destruct (U v Hin) as [_ C].
      unfold simmons_formula, simmons_effective.
      destruct C as [Ev|[Ex Ev]]; rewrite Ev.
      * reflexivity.
      * rewrite Ex. rewrite <- exp_factor_zero_sign by exact He.
        reflexivity.
Qed.

End ModelEdges.

Section ModelEdgesWitnesses.

Local Open Scope float_scope.

Lemma X1_nonfinite_voltage_is_not_masked_witness :
  nth_error [[1; infinity; nan]] 0%nat = Some [1; infinity; nan]
  /\ nth_error [1; infinity; nan] 2%nat = Some nan
  /\ is_finite nan = false
  /\ exists out_s out_b js jb,
      returns (simmons_current_density exp_ref 0%nat 1 1)
              [[1; infinity; nan]] out_s
      /\ nth_error out_s 2%nat = Some js /\ is_finite js = false
      /\ returns (bdr_current_density exp_ref 0%nat 1 1 0.25)
                 [[1; infinity; nan]] out_b
      /\ nth_error out_b 2%nat = Some jb /\ is_finite jb = false.
Proof.
  do 3 (split; [reflexivity|]).
  exact (X1_nonfinite_voltage_is_not_masked exp_ref [[1; infinity; nan]] 0%nat
           [1; infinity; nan] 1 1 0.25 2%nat nan eq_refl eq_refl eq_refl).
Defined.

Lemma X2_bdr_zero_asymmetry_has_constant_barrier_witness :
  nth_error [[-1; 0; 2]] 0%nat = Some [-1; 0; 2]
  /\ is_finite 1 = true /\ is_zero 1 = false
  /\ Forall (fun v => is_finite v = true) [-1; 0; 2]
  /\ returns (bdr_current_density exp_ref 0%nat 1 1 0.0) [[-1; 0; 2]]
       (map (fun v => 1e5 * v * exp_ref (- 10.0 * 1 * sqrt (np_maximum 1 0)))
            [-1; 0; 2]).
Proof.
  assert (F : Forall (fun v => is_finite v = true) [-1; 0; 2])
    by (repeat constructor).
  do 3 (split; [reflexivity|]). split; [exact F|].
  exact (X2_bdr_zero_asymmetry_has_constant_barrier exp_ref [[-1; 0; 2]] 0%nat
           [-1; 0; 2] 1 1 eq_refl eq_refl eq_refl F).
Defined.

Lemma X3_simmons_reverse_bias_is_unclamped_witness :
  special_values exp_ref
  /\ nth_error [[-1; -0.5; 0]] 0%nat = Some [-1; -0.5; 0]
  /\ is_finite neg_zero = true /\ (0 <=? neg_zero) = true
  /\ Forall (fun v => is_finite v = true /\ (v <=? 0) = true) [-1; -0.5; 0]
  /\ returns (simmons_current_density exp_ref 0%nat neg_zero 1)
       [[-1; -0.5; 0]]
       (map (fun v => 1e5 * v
                      * exp_ref (- 10.0 * 1 * sqrt (neg_zero - v / 2.0)))
            [-1; -0.5; 0]).
Proof.
  assert (F : Forall (fun v => is_finite v = true /\ (v <=? 0) = true)
                     [-1; -0.5; 0])
    by (repeat constructor).
  split; [exact exp_ref_special|].
  do 3 (split; [reflexivity|]). split; [exact F|].
  exact (proj2 (X3_simmons_reverse_bias_is_unclamped exp_ref [[-1; -0.5; 0]]
                  0%nat [-1; -0.5; 0] neg_zero 1 exp_ref_special
                  eq_refl eq_refl eq_refl F)).
Defined.

End ModelEdgesWitnesses.

(** ** A fit followed by an evaluation of the fitted model *)

Section PredictAfterFit.

Local Open Scope float_scope.

Variable curve_fit : optimizer.
Variable np_exp : float -> float.
Hypothesis curve_fit_frame_safe : optimizer_frame_safe curve_fit.

Lemma store_after_fit (h : heap) (V J : loc) (model : pyfunc)
      (p0 : list float) :
  frame_safe model ->
  preserves h (heap_of (run curve_fit (fit_model V J model p0) h)).
Proof.
  intros Hm. rewrite run_fit_model. unfold heap_of. cbn [fst snd].
  apply curve_fit_frame_safe. exact Hm.
Qed.

(** X4.  After [fit_simmons(V, J)] has returned [popt], the call
    [simmons_current_density(V, *popt)] on the same [V] returns the
    Simmons curve of the fitted parameters, one element per sample of [V],
    when [popt] has two entries, and is a [TypeError] that allocates
    nothing when it has not; likewise [fit_bdr] and [bdr_current_density]
    with three. *)
Theorem X4_fitted_curve_after_fit :
  forall (h : heap) (V J : loc) (vs : ndarray),
    nth_error h V = Some vs ->
    (forall popt pcov h' calls,
        run curve_fit (fit_simmons np_exp V J) h
        = (Ok (popt, pcov), h', calls) ->
        (forall bh bt,
            popt = [bh; bt] ->
            exists out,
              returns (call (simmons_model np_exp) V popt) h' out
              /\ out = map (simmons_formula np_exp bh bt) vs
              /\ length out = length vs)
        /\ (length popt <> 2%nat ->
            call (simmons_model np_exp) V popt h' = (Raise TypeError, h')))
    /\ (forall popt pcov h' calls,
           run curve_fit (fit_bdr np_exp V J) h
           = (Ok (popt, pcov), h', calls) ->
           (forall bh bt asym,
               popt = [bh; bt; asym] ->
               exists out,
                 returns (call (bdr_model np_exp) V popt) h' out
                 /\ out = map (bdr_formula np_exp bh bt asym) vs
                 /\ length out = length vs)
           /\ (length popt <> 3%nat ->
               call (bdr_model np_exp) V popt h' = (Raise TypeError, h'))).
Proof.
  intros h V J vs HV. split.
  - intros popt pcov h' calls R.
    assert (HV' : nth_error h' V = Some vs).
    { pose proof (store_after_fit h V J _ [1.0; 1.0]
                    (frame_safe_simmons np_exp)) as P.
      unfold fit_simmons in R. cbv zeta in R. rewrite R in P.
      apply P. exact HV. }
    split.
    + intros bh bt ->. eexists. split; [|split; [reflexivity|]].
      * destruct (simmons_run np_exp h' V vs bh bt HV') as (h2 & E & Hmid).
        exact (returns_of_run _ _ _ _ E Hmid).
      * apply length_map.
    + intros Hn. unfold call. cbn [nparams simmons_model].
      destruct (Nat.eqb_spec (length popt) 2) as [E|_];
        [contradiction|reflexivity].
  - intros popt pcov h' calls R.
    assert (HV' : nth_error h' V = Some vs).
    { pose proof (store_after_fit h V J _ [1.0; 1.0; 0.0]
                    (frame_safe_bdr np_exp)) as P.
      unfold fit_bdr in R. cbv zeta in R. rewrite R in P.
      apply P. exact HV. }
    split.
    + intros bh bt asym ->. eexists. split; [|split; [reflexivity|]].
      * destruct (bdr_run np_exp h' V vs bh bt asym HV') as (h2 & E & Hmid).
        exact (returns_of_run _ _ _ _ E Hmid).
      * apply length_map.
    + intros Hn. unfold call. cbn [nparams bdr_model].
      destruct (Nat.eqb_spec (length popt) 3) as [E|_];
        [contradiction|reflexivity].
Qed.

End PredictAfterFit.

Section PredictAfterFitWitness.

Local Open Scope float_scope.

Lemma X4_fitted_curve_after_fit_witness :
  optimizer_frame_safe degenerate_fit
  /\ nth_error [[-1; 0; 1]; [-0.5; 0; 0.5]] 0%nat = Some [-1; 0; 1]
  /\ exists h' out,
      returns (call (simmons_model exp_ref) 0%nat [1; 1]) h' out
      /\ out = map (simmons_formula exp_ref 1 1) [-1; 0; 1]
      /\ length out = 3%nat.
Proof.
  split; [exact degenerate_fit_frame_safe|]. split; [reflexivity|].
  eexists.
  exact (proj1 (proj1 (X4_fitted_curve_after_fit degenerate_fit exp_ref
                         degenerate_fit_frame_safe
                         [[-1; 0; 1]; [-0.5; 0; 0.5]] 0%nat 1%nat
                         [-1; 0; 1] eq_refl)
                      [1; 1]
                      [[infinity; infinity]; [infinity; infinity]]
                      _ _ eq_refl)
               1 1 eq_refl).
Defined.

End PredictAfterFitWitness.

(** ** The application: loading data and running a fit *)

Section Application.

Variables dataframe series axes : Type.
Variable answer :
  forall X : Type,
    list (entry dataframe series axes) ->
    query dataframe series axes X -> outcome X.
Variable react :
  list (entry dataframe series axes) -> action series axes -> outcome unit.
Variable curve_fit : optimizer.
Variable np_exp : float -> float.
Variable fmt_3g : float -> String.string.

Import String.StringSyntax.
Local Open Scope string_scope.

Local Abbreviation world := (world dataframe series axes).
Local Abbreviation W := (W dataframe series axes).

Lemma logged_nil (w : world) : logged w [] = w.
Proof. destruct w. unfold logged. cbn. now rewrite app_nil_r. Qed.

Lemma logged_logged (w : world) l1 l2 :
  logged (logged w l1) l2 = logged w (l1 ++ l2).
Proof. unfold logged. cbn. now rewrite app_assoc. Qed.

(** *** Computations that only call the libraries *)

Lemma calls_only_ret {A} (a : A) : calls_only (@wret dataframe series axes A a).
Proof. intros w. exists []. cbn. now rewrite logged_nil. Qed.

Lemma calls_only_raise {A} e : calls_only (@wraise dataframe series axes A e).
Proof. intros w. exists []. cbn. now rewrite logged_nil. Qed.

Lemma calls_only_ask {X} (q : query dataframe series axes X) :
  calls_only (ask answer q).
Proof. intros w. exists [Asked X q]. split; [reflexivity|repeat constructor]. Qed.

Lemma calls_only_do (a : action series axes) : calls_only (do react a).
Proof. intros w. exists [Did a]. split; [reflexivity|repeat constructor]. Qed.

Lemma calls_only_get_df : calls_only (@get_df dataframe series axes).
Proof. intros w. exists []. cbn. now rewrite logged_nil. Qed.

Lemma calls_only_getitem params i :
  calls_only (@getitem dataframe series axes params i).
Proof.
  unfold getitem. destruct (nth_error params i);
    [apply calls_only_ret|apply calls_only_raise].
Qed.

Lemma calls_only_bind {A B} (c : W A) (k : A -> W B) :
  calls_only c -> (forall a, calls_only (k a)) -> calls_only (wbind c k).
Proof.
  intros Hc Hk w. unfold wbind. destruct (Hc w) as (l1 & E1 & F1).
  destruct (c w) as [[a|e] w1]; cbn [snd] in E1; subst w1.
  - destruct (Hk a (logged w l1)) as (l2 & E2 & F2). exists (l1 ++ l2).
    rewrite E2, logged_logged. split; [reflexivity|].
    apply Forall_app. now split.
  - exists l1. now split.
Qed.

Lemma calls_only_try {A} (body : W A) (handler : exn -> W A) :
  calls_only body -> (forall e, calls_only (handler e)) ->
  calls_only (try_except body handler).
Proof.
  intros Hb Hh w. unfold try_except. destruct (Hb w) as (l1 & E1 & F1).
  destruct (body w) as [[a|e] w1]; cbn [snd] in E1; subst w1.
  - exists l1. now split.
  - destruct (is_exception e); [|exists l1; now split].
    destruct (Hh e (logged w l1)) as (l2 & E2 & F2). exists (l1 ++ l2).
    rewrite E2, logged_logged. split; [reflexivity|].
    apply Forall_app. now split.
Qed.

Lemma calls_only_plot_raw : calls_only (plot_raw answer react).
Proof.
  unfold plot_raw. apply calls_only_bind; [apply calls_only_get_df|].
  intros [d|]; [|apply calls_only_ret].
  repeat (apply calls_only_bind;
          [first [apply calls_only_do|apply calls_only_ask]|intros ?]).
  apply calls_only_do.
Qed.

(** *** Computations that start no fit *)

Lemma calls_only_fits_nothing {A} (c : W A) : calls_only c -> fits_nothing c.
Proof.
  intros H w. destruct (H w) as (l & E & F). exists l. now rewrite E.
Qed.

Lemma fits_nothing_lift {A} (m : M A) :
  fits_nothing (@lift dataframe series axes A m).
Proof.
  intros w. exists []. unfold lift. destruct (m (w_store w)) as [o h'].
  cbn. now rewrite app_nil_r.
Qed.

Lemma fits_nothing_bind {A B} (c : W A) (k : A -> W B) :
  fits_nothing c -> (forall a, fits_nothing (k a)) -> fits_nothing (wbind c k).
Proof.
  intros Hc Hk w. unfold wbind. destruct (Hc w) as (l1 & E1 & F1).
  destruct (c w) as [[a|e] w1]; cbn [snd] in E1.
  - destruct (Hk a w1) as (l2 & E2 & F2). exists (l1 ++ l2).
    rewrite E2, E1, app_assoc. split; [reflexivity|].
    apply Forall_app. now split.
  - exists l1. now split.
Qed.

(** A computation whose first addition to the log is the fit [c], and
    which starts no other. *)
Lemma fit_first_bind {A B} (c : W A) (k : A -> W B) (f : fit_call) :
  (forall w, exists l,
      w_log (snd (c w)) = w_log w ++ Fitted f :: l
      /\ Forall is_library_call l) ->
  (forall a, fits_nothing (k a)) ->
  forall w, exists l,
    w_log (snd (wbind c k w)) = w_log w ++ Fitted f :: l
    /\ Forall is_library_call l.
Proof.
  intros Hc Hk w. unfold wbind. destruct (Hc w) as (l1 & E1 & F1).
  destruct (c w) as [[a|e] w1]; cbn [snd] in E1.
  - destruct (Hk a w1) as (l2 & E2 & F2). exists (l1 ++ l2).
    rewrite E2, E1, <- app_assoc. split; [reflexivity|].
    apply Forall_app. now split.
  - exists l1. now split.
Qed.

Lemma fit_first_try {A} (body : W A) (handler : exn -> W A) (f : fit_call) :
  (forall w, exists l,
      w_log (snd (body w)) = w_log w ++ Fitted f :: l
      /\ Forall is_library_call l) ->
  (forall e, fits_nothing (handler e)) ->
  forall w, exists l,
    w_log (snd (try_except body handler w)) = w_log w ++ Fitted f :: l
    /\ Forall is_library_call l.
Proof.
  intros Hb Hh w. unfold try_except. destruct (Hb w) as (l1 & E1 & F1).
  destruct (body w) as [[a|e] w1]; cbn [snd] in E1.
  - exists l1. now split.
  - destruct (is_exception e); [|exists l1; now split].
    destruct (Hh e w1) as (l2 & E2 & F2). exists (l1 ++ l2).
    rewrite E2, E1, <- app_assoc. split; [reflexivity|].
    apply Forall_app. now split.
Qed.

Lemma fit_model_first (V J : loc) (model : pyfunc) (p0 : list float) :
  forall w : world, exists l,
    w_log (snd (fit curve_fit (fit_model V J model p0) w))
    = w_log w ++ Fitted {| fc_f := model; fc_xdata := V; fc_ydata := J;
                           fc_p0 := p0; fc_maxfev := 20000 |} :: l
    /\ Forall is_library_call l.
Proof.
  intros w. exists []. unfold fit. rewrite run_fit_model.
  split; [reflexivity|constructor].
Qed.

Lemma fit_and_describe_first (name : String.string) (V J : loc) :
  forall w : world, exists l,
    w_log (snd (fit_and_describe curve_fit np_exp fmt_3g name V J w))
    = w_log w ++ Fitted (chosen_call np_exp name V J) :: l
    /\ Forall is_library_call l.
Proof.
  unfold fit_and_describe, chosen_call.
  destruct (String.eqb name "simmons").
  - apply fit_first_bind; [apply fit_model_first|].
    intros [params pcov].
    repeat (apply fits_nothing_bind;
            [first [apply calls_only_fits_nothing, calls_only_getitem
                   |apply fits_nothing_lift]|intros ?]).
    apply calls_only_fits_nothing, calls_only_ret.
  - apply fit_first_bind; [apply fit_model_first|].
    intros [params pcov].
    repeat (apply fits_nothing_bind;
            [first [apply calls_only_fits_nothing, calls_only_getitem
                   |apply fits_nothing_lift]|intros ?]).
    apply calls_only_fits_nothing, calls_only_ret.
Qed.

Lemma step_ask {X B} (q : query dataframe series axes X) (k : X -> W B)
      (w : world) (x : X) :
  answer X (w_log w) q = Ok x ->
  wbind (ask answer q) k w = k x (logged w [Asked X q]).
Proof. intros E. unfold wbind, ask. now rewrite E. Qed.

Lemma step_ask_raise {X B} (q : query dataframe series axes X) (k : X -> W B)
      (w : world) (e : exn) :
  answer X (w_log w) q = Raise e ->
  wbind (ask answer q) k w = (Raise e, logged w [Asked X q]).
Proof. intros E. unfold wbind, ask. now rewrite E. Qed.

Lemma step_do {B} (a : action series axes) (k : unit -> W B) (w : world) :
  react (w_log w) a = Ok tt ->
  wbind (do react a) k w = k tt (logged w [Did a]).
Proof. intros E. unfold wbind, do. now rewrite E. Qed.

Lemma plot_raw_ok (w : world) (d : dataframe) (x y : series) :
  w_df w = Some d ->
  plots_succeed answer react d x y ->
  exists ax,
    plot_raw answer react w
    = (Ok tt,
       logged w [Did FigureClear; Asked _ AddSubplot;
                 Asked _ (Iloc d 0); Asked _ (Iloc d 1);
                 Did (AxPlotData ax x y);
                 Did (SetXLabel ax "Voltage");
                 Did (SetYLabel ax "Current / Current density");
                 Did (AxLegend ax); Did CanvasDraw]).
Proof.
  intros Hd (Hr & Hadd & _ & Hx & Hy). unfold plot_raw.
  unfold wbind at 1, get_df. rewrite Hd.
  rewrite step_do by apply Hr.
  match goal with
  | |- context [wbind (ask answer AddSubplot) _ ?w1] =>
      destruct (Hadd (w_log w1)) as [ax Eax]
  end.
  rewrite (step_ask _ _ _ _ Eax).
  rewrite (step_ask _ _ _ _ (Hx _)), (step_ask _ _ _ _ (Hy _)).
  rewrite !step_do by apply Hr.
  unfold do. rewrite Hr, !logged_logged. cbn [app].
  exists ax. reflexivity.
Qed.

Ltac asked E :=
  first [erewrite step_ask
           by (cbn [logged w_log]; rewrite <- ?app_assoc; exact E)
        |erewrite step_ask_raise
           by (cbn [logged w_log]; rewrite <- ?app_assoc; exact E)].

(** X5.  With no table loaded, [run_fit] shows the notice "No data" and
    does nothing else: the optimizer is not called, no array is allocated,
    the result text is not set and nothing is drawn.  [_plot_raw] then
    does nothing at all. *)
Theorem X5_run_fit_without_data_only_informs (w : world) :
  w_df w = None ->
  run_fit answer react curve_fit np_exp fmt_3g w
  = (react (w_log w) (ShowInfo "No data" "Please load a CSV file first"),
     logged w [Did (ShowInfo "No data" "Please load a CSV file first")])
  /\ plot_raw answer react w = (Ok tt, w).
Proof.
  intros H. unfold run_fit, plot_raw, wbind, get_df. rewrite H.
  split; reflexivity.
Qed.


(** X7.  Whatever the toolkit and the optimizer do, the [try] statement of
    [run_fit] starts exactly one fit, before any other call, on the arrays
    it was given and with [maxfev = 20000]: the Simmons model from
    [(1.0, 1.0)] when the selected name is "simmons", and the BDR model
    from [(1.0, 1.0, 0.0)] for every other name. *)
Theorem X7_one_optimizer_call_chosen_by_name
        (name : String.string) (V J : loc) (w : world) :
  (exists rest,
      w_log (snd (fit_and_plot answer react curve_fit np_exp fmt_3g
                               name V J w))
      = w_log w ++ Fitted (chosen_call np_exp name V J) :: rest
      /\ Forall is_library_call rest)
  /\ fc_maxfev (chosen_call np_exp name V J) = 20000%Z
  /\ fc_xdata (chosen_call np_exp name V J) = V
  /\ fc_ydata (chosen_call np_exp name V J) = J
  /\ (name = "simmons" ->
      fc_f (chosen_call np_exp name V J) = simmons_model np_exp
      /\ fc_p0 (chosen_call np_exp name V J) = [1.0; 1.0]%float)
  /\ (name <> "simmons" ->
      fc_f (chosen_call np_exp name V J) = bdr_model np_exp
      /\ fc_p0 (chosen_call np_exp name V J) = [1.0; 1.0; 0.0]%float).
Proof.
  split.
  - unfold fit_and_plot. apply fit_first_try.
    + apply fit_first_bind; [apply fit_and_describe_first|].
      intros [desc fitted].
      repeat (apply fits_nothing_bind;
              [apply calls_only_fits_nothing;
               first [apply calls_only_do|apply calls_only_ask
                     |apply calls_only_plot_raw]|intros ?]).
      apply calls_only_fits_nothing, calls_only_do.
    + intros e. apply calls_only_fits_nothing, calls_only_do.
  - unfold chosen_call. destruct (String.eqb_spec name "simmons") as [E|E];
      repeat split; try reflexivity; intros; congruence.
Qed.


(** X8.  When drawing succeeds, the optimizer writes to no array of its
    caller and the Simmons fit returns [(h, s)], [run_fit] ends normally
    having, in this order, set the result text to
    "Simmons fit: phi=<h> eV, s=<s> nm", redrawn the data as [_plot_raw]
    does (figure cleared, new axes, first column against second column,
    the two axis labels, legend, canvas), and plotted over [V] a new
    array that holds the Simmons curve of [(h, s)] at every sample of
    [V]; [V] and the loaded table are as they were. *)
Theorem X8_successful_simmons_fit_is_shown
        (V J : loc) (w : world) (d : dataframe) (x y : series)
        (vs : ndarray) (bh bt : float) (pcov : matrix) (h' : heap) :
  w_df w = Some d ->
  plots_succeed answer react d x y ->
  optimizer_frame_safe curve_fit ->
  nth_error (w_store w) V = Some vs ->
  curve_fit (chosen_call np_exp "simmons" V J) (w_store w)
  = (Ok ([bh; bt], pcov), h') ->
  exists (w' : world) (ax0 ax : axes) (fitted : loc),
    fit_and_plot answer react curve_fit np_exp fmt_3g "simmons" V J w
    = (Ok tt, w')
    /\ w_df w' = Some d
    /\ nth_error (w_store w') V = Some vs
    /\ nth_error (w_store w') fitted
       = Some (map (simmons_formula np_exp bh bt) vs)
    /\ nth_error h' fitted = None
    /\ w_log w'
       = w_log w
         ++ [Fitted (chosen_call np_exp "simmons" V J);
             Did (ResultVarSet
                    (String.concat ""
                       ["Simmons fit: phi="; fmt_3g bh;
                        " eV, s="; fmt_3g bt; " nm"]))]
         ++ [Did FigureClear; Asked _ AddSubplot;
             Asked _ (Iloc d 0); Asked _ (Iloc d 1);
             Did (AxPlotData ax0 x y);
             Did (SetXLabel ax0 "Voltage");
             Did (SetYLabel ax0 "Current / Current density");
             Did (AxLegend ax0); Did CanvasDraw]
         ++ [Asked _ FigureAxes0; Did (AxPlotFit ax V fitted);
             Did (AxLegend ax); Did CanvasDraw].
Proof.
  intros Hd Hc Hfs HV Hfit.
  assert (HV' : nth_error h' V = Some vs).
  { pose proof (Hfs (chosen_call np_exp "simmons" V J) (w_store w)
                    (frame_safe_simmons np_exp)) as P.
    rewrite Hfit in P. apply P, HV. }
  destruct (simmons_run np_exp h' V vs bh bt HV') as (h2 & E & mid & Hmid).
  unfold chosen_call in Hfit. cbn [String.eqb Ascii.eqb Bool.eqb] in Hfit.
  unfold fit_and_plot, try_except, fit_and_describe, chosen_call.
  cbn [String.eqb Ascii.eqb Bool.eqb].
  unfold wbind at 1. unfold wbind at 1. unfold fit, fit_simmons.
  rewrite run_fit_model, Hfit. cbn [fst snd map].
  unfold getitem. cbn [nth_error]. unfold wbind at 1, wret at 1.
  unfold wbind at 1, wret at 1. unfold wbind at 1, lift at 1.
  cbn [w_store].
  change (call (simmons_model np_exp) V [bh; bt])
    with (simmons_current_density np_exp V bh bt).
  rewrite E. unfold wret at 1.
  pose proof Hc as (Hr & _ & Hax & _).
  rewrite step_do by apply Hr.
  match goal with
  | |- context [wbind (plot_raw answer react) _ ?w1] =>
      destruct (plot_raw_ok w1 d x y Hd Hc) as (ax0 & Ep)
  end.
  unfold wbind at 1. rewrite Ep.
  match goal with
  | |- context [wbind (ask answer FigureAxes0) _ ?w1] =>
      destruct (Hax (w_log w1)) as [ax Eax]
  end.
  rewrite (step_ask _ _ _ _ Eax).
  rewrite !step_do by apply Hr. unfold do at 1. rewrite Hr.
  eexists. exists ax0, ax, (length h2).
  split; [reflexivity|]. unfold logged. cbn [w_df w_store w_log].
  split; [exact Hd|]. split; [apply lookup_old; subst h2;
                              now apply preserves_app|].
  split; [apply lookup_new|].
  split; [apply nth_error_None; subst h2; rewrite length_app; lia|].
  rewrite <- !app_assoc. reflexivity.
Qed.

(** X9.  Likewise for every name other than "simmons": when the BDR fit
    returns [(h, s, a)], [run_fit] sets the result text to
    "BDR fit: phi=<h> eV, s=<s> nm, Δϕ=<a> eV", redraws the data as
    [_plot_raw] does, and plots over [V] a new array that holds the BDR
    curve of [(h, s, a)] at every sample of [V]. *)
Theorem X9_successful_bdr_fit_is_shown
        (name : String.string) (V J : loc) (w : world) (d : dataframe) (x y : series)
        (vs : ndarray) (bh bt asym : float) (pcov : matrix) (h' : heap) :
  String.eqb name "simmons" = false ->
  w_df w = Some d ->
  plots_succeed answer react d x y ->
  optimizer_frame_safe curve_fit ->
  nth_error (w_store w) V = Some vs ->
  curve_fit (chosen_call np_exp name V J) (w_store w)
  = (Ok ([bh; bt; asym], pcov), h') ->
  exists (w' : world) (ax0 ax : axes) (fitted : loc),
    fit_and_plot answer react curve_fit np_exp fmt_3g name V J w
    = (Ok tt, w')
    /\ w_df w' = Some d
    /\ nth_error (w_store w') V = Some vs
    /\ nth_error (w_store w') fitted
       = Some (map (bdr_formula np_exp bh bt asym) vs)
    /\ nth_error h' fitted = None
    /\ w_log w'
       = w_log w
         ++ [Fitted (chosen_call np_exp name V J);
             Did (ResultVarSet
                    (String.concat ""
                       ["BDR fit: phi="; fmt_3g bh;
                        " eV, s="; fmt_3g bt;
                        " nm, Δϕ="; fmt_3g asym; " eV"]))]
         ++ [Did FigureClear; Asked _ AddSubplot;
             Asked _ (Iloc d 0); Asked _ (Iloc d 1);
             Did (AxPlotData ax0 x y);
             Did (SetXLabel ax0 "Voltage");
             Did (SetYLabel ax0 "Current / Current density");
             Did (AxLegend ax0); Did CanvasDraw]
         ++ [Asked _ FigureAxes0; Did (AxPlotFit ax V fitted);
             Did (AxLegend ax); Did CanvasDraw].
Proof.
  intros Hn Hd Hc Hfs HV Hfit.
  assert (HV' : nth_error h' V = Some vs).
  { pose proof (Hfs (chosen_call np_exp name V J) (w_store w)) as P.
    rewrite Hfit in P. apply P; [|exact HV].
    unfold chosen_call. rewrite Hn. apply frame_safe_bdr. }
  destruct (bdr_run np_exp h' V vs bh bt asym HV') as (h2 & E & mid & Hmid).
  unfold chosen_call in *. rewrite Hn in *.
  unfold fit_and_plot, try_except, fit_and_describe. rewrite Hn.
  unfold wbind at 1. unfold wbind at 1. unfold fit, fit_bdr.
  rewrite run_fit_model, Hfit. cbn [fst snd map].
  unfold getitem. cbn [nth_error]. unfold wbind at 1, wret at 1.
  unfold wbind at 1, wret at 1. unfold wbind at 1, wret at 1.
  unfold wbind at 1, lift at 1.
  cbn [w_store].
  change (call (bdr_model np_exp) V [bh; bt; asym])
    with (bdr_current_density np_exp V bh bt asym).
  rewrite E. unfold wret at 1.
  pose proof Hc as (Hr & _ & Hax & _).
  rewrite step_do by apply Hr.
  match goal with
  | |- context [wbind (plot_raw answer react) _ ?w1] =>
      destruct (plot_raw_ok w1 d x y Hd Hc) as (ax0 & Ep)
  end.
  unfold wbind at 1. rewrite Ep.
  match goal with
  | |- context [wbind (ask answer FigureAxes0) _ ?w1] =>
      destruct (Hax (w_log w1)) as [ax Eax]
  end.
  rewrite (step_ask _ _ _ _ Eax).
  rewrite !step_do by apply Hr. unfold do at 1. rewrite Hr.
  eexists. exists ax0, ax, (length h2).
  split; [reflexivity|]. unfold logged. cbn [w_df w_store w_log].
  split; [exact Hd|]. split; [apply lookup_old; subst h2;
                              now apply preserves_app|].
  split; [apply lookup_new|].
  split; [apply nth_error_None; subst h2; rewrite length_app; lia|].
  rewrite <- !app_assoc. reflexivity.
Qed.

(** X10.  When the file dialog is cancelled (it returns the empty string),
    [load_data] returns at once: nothing is read, the loaded table and the
    arrays are kept, and no other call is made. *)
Theorem X10_cancelled_dialog_changes_nothing (w : world) :
  answer _ (w_log w) AskOpenFilename = Ok "" ->
  load_data answer react w = (Ok tt, logged w [Asked _ AskOpenFilename]).
Proof.
  intros E. unfold load_data. asked E. reflexivity.
Qed.


(** X12.  Once the chosen file has been read, the table it gave is the
    loaded one when [load_data] ends, whatever the calls that follow do
    (also when counting the rows or drawing raises and the "Error" dialog
    is shown); no array is touched, and the first three calls are the file
    dialog, the read and [len]. *)
Theorem X12_read_file_replaces_data
        (w : world) (path : String.string) (d : dataframe) :
  String.eqb path "" = false ->
  answer _ (w_log w) AskOpenFilename = Ok path ->
  answer _ (w_log w ++ [Asked _ AskOpenFilename]) (ReadCsv path) = Ok d ->
  w_df (snd (load_data answer react w)) = Some d
  /\ w_store (snd (load_data answer react w)) = w_store w
  /\ exists rest,
      w_log (snd (load_data answer react w))
      = w_log w
        ++ [Asked _ AskOpenFilename; Asked _ (ReadCsv path);
            Asked _ (Len d)]
        ++ rest
      /\ Forall is_library_call rest.
Proof.
  intros Hp E1 E2.
  assert (H : exists rest,
             snd (load_data answer react w)
             = {| w_df := Some d; w_store := w_store w;
                  w_log := w_log w
                           ++ [Asked _ AskOpenFilename; Asked _ (ReadCsv path);
                               Asked _ (Len d)]
                           ++ rest |}
             /\ Forall is_library_call rest).
  { unfold load_data. asked E1.
    rewrite Hp.
    unfold try_except, load_iv_csv. unfold wbind at 1.
    asked E2. unfold wret at 1.
    unfold wbind at 1, set_df at 1.
    unfold wbind at 1, ask at 1.
    match goal with
    | |- context [answer nat ?hist (Len d)] =>
        destruct (answer nat hist (Len d)) as [n|e]
    end.
    - match goal with
      | |- context [wbind ?c ?k ?w1] =>
          assert (Hk : calls_only (wbind c k))
            by (apply calls_only_bind;
                [apply calls_only_do|intros ?; apply calls_only_plot_raw]);
          destruct (Hk w1) as (l & El & Fl);
          destruct (wbind c k w1) as [[u|e] w2]; cbn [snd] in El; subst w2
      end.
      + exists l. split; [|exact Fl].
        unfold logged. cbn [snd w_df w_store w_log app].
        rewrite <- !app_assoc. reflexivity.
      + destruct (is_exception e).
        * exists (l ++ [Did (ShowError "Error" e)]). split.
          -- unfold do. unfold logged. cbn [snd w_df w_store w_log app].
             rewrite <- !app_assoc. reflexivity.
          -- apply Forall_app. split; [exact Fl|repeat constructor].
        * exists l. split; [|exact Fl].
          unfold logged. cbn [snd w_df w_store w_log app].
          rewrite <- !app_assoc. reflexivity.
    - destruct (is_exception e).
      + exists [Did (ShowError "Error" e)]. split; [|repeat constructor].
        unfold do. unfold logged. cbn [snd w_df w_store w_log app].
        rewrite <- !app_assoc. reflexivity.
      + exists []. split; [|constructor].
        unfold logged. cbn [snd w_df w_store w_log app].
        rewrite <- !app_assoc. reflexivity. }
  destruct H as (rest & -> & F). cbn [w_df w_store w_log].
  split; [reflexivity|split; [reflexivity|]]. exists rest. now split.
Qed.

(** X13.  The conversion of the columns to arrays stands before the [try]
    statement of [run_fit]: when the first column cannot be converted, the
    exception leaves [run_fit], no dialog is shown and no fit is
    started. *)
Theorem X13_column_conversion_error_escapes
        (w : world) (d : dataframe) (c0 : series) (e : exn) :
  w_df w = Some d ->
  answer _ (w_log w) (Iloc d 0) = Ok c0 ->
  answer _ (w_log w ++ [Asked _ (Iloc d 0)]) (ToNumpy c0) = Raise e ->
  run_fit answer react curve_fit np_exp fmt_3g w
  = (Raise e, logged w [Asked _ (Iloc d 0); Asked _ (ToNumpy c0)]).
Proof.
  intros Hd E1 E2. unfold run_fit. unfold wbind at 1, get_df. rewrite Hd.
  asked E1. unfold wbind at 1, to_numpy.
  asked E2. rewrite logged_logged. reflexivity.
Qed.

(** X14.  With a table loaded and columns that convert, [run_fit] runs its
    [try] statement on the arrays that [to_numpy] returned for the first
    and for the second column, with the model name read from the
    selector.  It makes no copy of its own: a column that is returned as a
    view is fitted in its own buffer, and a column that is returned
    converted is a new array with the converted values.  The arrays that
    existed and the loaded table are as they were. *)
Theorem X14_run_fit_fits_converted_columns
        (w : world) (d : dataframe) (c0 c1 : series) (r0 r1 : converted)
        (name : String.string) :
  w_df w = Some d ->
  answer _ (w_log w) (Iloc d 0) = Ok c0 ->
  answer _ (w_log w ++ [Asked _ (Iloc d 0)]) (ToNumpy c0) = Ok r0 ->
  answer _ (w_log w ++ [Asked _ (Iloc d 0); Asked _ (ToNumpy c0)])
         (Iloc d 1) = Ok c1 ->
  answer _ (w_log w ++ [Asked _ (Iloc d 0); Asked _ (ToNumpy c0);
                        Asked _ (Iloc d 1)])
         (ToNumpy c1) = Ok r1 ->
  answer _ (w_log w ++ [Asked _ (Iloc d 0); Asked _ (ToNumpy c0);
                        Asked _ (Iloc d 1); Asked _ (ToNumpy c1)])
         ModelVarGet = Ok name ->
  exists (V J : loc) (w1 : world),
    run_fit answer react curve_fit np_exp fmt_3g w
    = fit_and_plot answer react curve_fit np_exp fmt_3g name V J w1
    /\ match r0 with
       | View l => V = l
       | Copy xs => nth_error (w_store w) V = None
                    /\ nth_error (w_store w1) V = Some xs
       end
    /\ match r1 with
       | View l => J = l
       | Copy xs => nth_error (w_store w) J = None
                    /\ nth_error (w_store w1) J = Some xs
       end
    /\ preserves (w_store w) (w_store w1)
    /\ w_df w1 = Some d
    /\ w_log w1
       = w_log w ++ [Asked _ (Iloc d 0); Asked _ (ToNumpy c0);
                     Asked _ (Iloc d 1); Asked _ (ToNumpy c1);
                     Asked _ ModelVarGet].
Proof.
  intros Hd E1 E2 E3 E4 E5.
  assert (R : exists V J w1,
             run_fit answer react curve_fit np_exp fmt_3g w
             = fit_and_plot answer react curve_fit np_exp fmt_3g name V J w1
             /\ V = match r0 with
                    | View l => l
                    | Copy _ => length (w_store w)
                    end
             /\ J = match r1 with
                    | View l => l
                    | Copy _ => match r0 with
                                | View _ => length (w_store w)
                                | Copy _ => S (length (w_store w))
                                end
                    end
             /\ w1 = {| w_df := w_df w;
                        w_store :=
                          w_store w
                          ++ match r0 with View _ => [] | Copy xs => [xs] end
                          ++ match r1 with View _ => [] | Copy xs => [xs] end;
                        w_log :=
                          w_log w ++ [Asked _ (Iloc d 0); Asked _ (ToNumpy c0);
                                      Asked _ (Iloc d 1); Asked _ (ToNumpy c1);
                                      Asked _ ModelVarGet] |}).
  { do 3 eexists. split; [|split; [reflexivity|split; reflexivity]].
    unfold run_fit. unfold wbind at 1, get_df. rewrite Hd.
    asked E1. unfold wbind at 1, to_numpy.
    asked E2.
    destruct r0 as [l0|xs], r1 as [l1|ys];
      cbv beta iota; try unfold wret at 1;
      try (unfold lift at 1, new_array at 1);
      unfold logged; cbn [w_store w_df w_log];
      (erewrite step_ask by (unfold logged; cbn [w_log]; rewrite <- ?app_assoc; exact E3));
      unfold wbind at 1;
      (erewrite step_ask by (unfold logged; cbn [w_log]; rewrite <- ?app_assoc; exact E4));
      cbv beta iota; try unfold wret at 1;
      try (unfold lift at 1, new_array at 1);
      unfold logged; cbn [w_store w_df w_log];
      (erewrite step_ask by (unfold logged; cbn [w_log]; rewrite <- ?app_assoc; exact E5));
      unfold logged; cbn [w_store w_df w_log];
      cbn [app]; rewrite ?Hd, <- ?app_assoc, ?app_nil_r, ?length_app, ?Nat.add_1_r;
      cbn [app]; reflexivity. }
  destruct R as (V & J & w1 & ER & -> & -> & ->).
  do 3 eexists. split; [exact ER|]. cbn [w_store w_df w_log].
  split; [|split; [|split; [apply preserves_app|split; [exact Hd|reflexivity]]]].
  - destruct r0 as [l0|xs]; [reflexivity|]. split.
    + apply nth_error_None. lia.
    + rewrite nth_error_app2, Nat.sub_diag by lia. reflexivity.
  - destruct r1 as [l1|ys]; [reflexivity|]. destruct r0 as [l0|xs].
    + split; [apply nth_error_None; lia|].
      rewrite nth_error_app2, Nat.sub_diag by lia. reflexivity.
    + split; [apply nth_error_None; lia|].
      rewrite nth_error_app2 by lia.
      replace (S (length (w_store w)) - length (w_store w))%nat
        with 1%nat by lia. reflexivity.
Qed.

End Application.

Section ApplicationWitnesses.

Import String.StringSyntax.
Local Open Scope string_scope.

Lemma demo_plots_succeed (path : String.string) (frame : outcome table)
      (d : table) (x y : column) :
  demo_iloc d 0 = Ok x -> demo_iloc d 1 = Ok y ->
  plots_succeed (demo_answer path frame) demo_react d x y.
Proof.
  intros Hx Hy. split; [reflexivity|]. split; [intros hist; now exists tt|].
  split; [intros hist; now exists tt|]. split; intros hist; assumption.
Qed.

Lemma X5_run_fit_without_data_only_informs_witness :
  w_df (demo_world None []) = None
  /\ run_fit (demo_answer "" (Ok demo_table)) demo_react degenerate_fit
             exp_ref demo_fmt (demo_world None [])
     = (Ok tt,
        logged (demo_world None [])
               [Did (ShowInfo "No data" "Please load a CSV file first")])
  /\ plot_raw (demo_answer "" (Ok demo_table)) demo_react
              (demo_world None [])
     = (Ok tt, demo_world None []).
Proof.
  split; [reflexivity|].
  exact (X5_run_fit_without_data_only_informs
           _ _ _ (demo_answer "" (Ok demo_table)) demo_react degenerate_fit
           exp_ref demo_fmt (demo_world None []) eq_refl).
Defined.


Lemma X8_successful_simmons_fit_is_shown_witness :
  w_df (demo_world (Some demo_table) demo_store) = Some demo_table
  /\ plots_succeed (demo_answer "" (Ok demo_table)) demo_react demo_table
                   [Some (-1)%float; Some 0%float; Some 1%float]
                   [Some (-0.5)%float; Some 0%float; Some 0.5%float]
  /\ optimizer_frame_safe degenerate_fit
  /\ nth_error demo_store 0 = Some [-1; 0; 1]%float
  /\ exists h',
      degenerate_fit (chosen_call exp_ref "simmons" 0 1) demo_store
      = (Ok ([1; 1]%float,
             [[infinity; infinity]; [infinity; infinity]]), h')
      /\ exists w' ax0 ax fitted,
          fit_and_plot (demo_answer "" (Ok demo_table)) demo_react
                       degenerate_fit exp_ref demo_fmt "simmons" 0 1
                       (demo_world (Some demo_table) demo_store)
          = (Ok tt, w')
          /\ w_df w' = Some demo_table
          /\ nth_error (w_store w') 0 = Some [-1; 0; 1]%float
          /\ nth_error (w_store w') fitted
             = Some (map (simmons_formula exp_ref 1 1) [-1; 0; 1]%float)
          /\ nth_error h' fitted = None
          /\ w_log w'
             = [Fitted (chosen_call exp_ref "simmons" 0 1);
                Did (ResultVarSet
                       "Simmons fit: phi=number eV, s=number nm")]
               ++ [Did FigureClear; Asked _ AddSubplot;
                   Asked _ (Iloc demo_table 0); Asked _ (Iloc demo_table 1);
                   Did (AxPlotData
                          ax0
                          [Some (-1)%float; Some 0%float; Some 1%float]
                          [Some (-0.5)%float; Some 0%float; Some 0.5%float]);
                   Did (SetXLabel ax0 "Voltage");
                   Did (SetYLabel ax0 "Current / Current density");
                   Did (AxLegend ax0); Did CanvasDraw]
               ++ [Asked _ FigureAxes0; Did (AxPlotFit ax 0 fitted);
                   Did (AxLegend ax); Did CanvasDraw].
Proof.
  split; [reflexivity|].
  split; [now apply demo_plots_succeed|].
  split; [exact degenerate_fit_frame_safe|]. split; [reflexivity|].
  exists (snd (degenerate_fit (chosen_call exp_ref "simmons" 0 1) demo_store)).
  assert (E : degenerate_fit (chosen_call exp_ref "simmons" 0 1) demo_store
              = (Ok ([1; 1]%float,
                     [[infinity; infinity]; [infinity; infinity]]),
                 snd (degenerate_fit (chosen_call exp_ref "simmons" 0 1)
                                     demo_store)))
    by (vm_compute; reflexivity).
  split; [exact E|].
  exact (X8_successful_simmons_fit_is_shown
           _ _ _ (demo_answer "" (Ok demo_table)) demo_react degenerate_fit
           exp_ref demo_fmt 0 1
           (demo_world (Some demo_table) demo_store) demo_table _ _
           [-1; 0; 1]%float 1%float 1%float _ _ eq_refl
           (demo_plots_succeed "" (Ok demo_table) demo_table _ _
                               eq_refl eq_refl)
           degenerate_fit_frame_safe eq_refl E).
Defined.

Lemma X9_successful_bdr_fit_is_shown_witness :
  String.eqb "bdr" "simmons" = false
  /\ w_df (demo_world (Some demo_table) demo_store) = Some demo_table
  /\ plots_succeed (demo_answer "" (Ok demo_table)) demo_react demo_table
                   [Some (-1)%float; Some 0%float; Some 1%float]
                   [Some (-0.5)%float; Some 0%float; Some 0.5%float]
  /\ optimizer_frame_safe degenerate_fit
  /\ nth_error demo_store 0 = Some [-1; 0; 1]%float
  /\ exists h',
      degenerate_fit (chosen_call exp_ref "bdr" 0 1) demo_store
      = (Ok ([1; 1; 0]%float,
             [[infinity; infinity; infinity];
              [infinity; infinity; infinity];
              [infinity; infinity; infinity]]), h')
      /\ exists w' ax0 ax fitted,
          fit_and_plot (demo_answer "" (Ok demo_table)) demo_react
                       degenerate_fit exp_ref demo_fmt "bdr" 0 1
                       (demo_world (Some demo_table) demo_store)
          = (Ok tt, w')
          /\ w_df w' = Some demo_table
          /\ nth_error (w_store w') 0 = Some [-1; 0; 1]%float
          /\ nth_error (w_store w') fitted
             = Some (map (bdr_formula exp_ref 1 1 0) [-1; 0; 1]%float)
          /\ nth_error h' fitted = None
          /\ w_log w'
             = [Fitted (chosen_call exp_ref "bdr" 0 1);
                Did (ResultVarSet
                       "BDR fit: phi=number eV, s=number nm, Δϕ=number eV")]
               ++ [Did FigureClear; Asked _ AddSubplot;
                   Asked _ (Iloc demo_table 0); Asked _ (Iloc demo_table 1);
                   Did (AxPlotData
                          ax0
                          [Some (-1)%float; Some 0%float; Some 1%float]
                          [Some (-0.5)%float; Some 0%float; Some 0.5%float]);
                   Did (SetXLabel ax0 "Voltage");
                   Did (SetYLabel ax0 "Current / Current density");
                   Did (AxLegend ax0); Did CanvasDraw]
               ++ [Asked _ FigureAxes0; Did (AxPlotFit ax 0 fitted);
                   Did (AxLegend ax); Did CanvasDraw].
Proof.
  split; [reflexivity|]. split; [reflexivity|].
  split; [now apply demo_plots_succeed|].
  split; [exact degenerate_fit_frame_safe|]. split; [reflexivity|].
  exists (snd (degenerate_fit (chosen_call exp_ref "bdr" 0 1) demo_store)).
  assert (E : degenerate_fit (chosen_call exp_ref "bdr" 0 1) demo_store
              = (Ok ([1; 1; 0]%float,
                     [[infinity; infinity; infinity];
              [infinity; infinity; infinity];
              [infinity; infinity; infinity]]),
                 snd (degenerate_fit (chosen_call exp_ref "bdr" 0 1)
                                     demo_store)))
    by (vm_compute; reflexivity).
  split; [exact E|].
  exact (X9_successful_bdr_fit_is_shown
           _ _ _ (demo_answer "" (Ok demo_table)) demo_react degenerate_fit
           exp_ref demo_fmt "bdr" 0 1
           (demo_world (Some demo_table) demo_store) demo_table _ _
           [-1; 0; 1]%float 1%float 1%float 0%float _ _ eq_refl eq_refl
           (demo_plots_succeed "" (Ok demo_table) demo_table _ _
                               eq_refl eq_refl)
           degenerate_fit_frame_safe eq_refl E).
Defined.

Lemma X10_cancelled_dialog_changes_nothing_witness :
  demo_answer "" (Ok demo_table) _ [] AskOpenFilename = Ok ""
  /\ load_data (demo_answer "" (Ok demo_table)) demo_react
               (demo_world (Some text_table) demo_store)
     = (Ok tt,
        {| w_df := Some text_table; w_store := demo_store;
           w_log := [Asked _ AskOpenFilename] |}).
Proof.
  split; [reflexivity|].
  exact (X10_cancelled_dialog_changes_nothing
           _ _ _ (demo_answer "" (Ok demo_table)) demo_react
           (demo_world (Some text_table) demo_store) eq_refl).
Defined.


Lemma X12_read_file_replaces_data_witness :
  String.eqb "iv.csv" "" = false
  /\ demo_answer "iv.csv" (Ok demo_table) _ [] AskOpenFilename = Ok "iv.csv"
  /\ demo_answer "iv.csv" (Ok demo_table) _ [Asked _ AskOpenFilename]
                 (ReadCsv "iv.csv")
     = Ok demo_table
  /\ w_df (snd (load_data (demo_answer "iv.csv" (Ok demo_table)) demo_react
                          (demo_world (Some text_table) [])))
     = Some demo_table
  /\ w_store (snd (load_data (demo_answer "iv.csv" (Ok demo_table))
                             demo_react (demo_world (Some text_table) [])))
     = []
  /\ exists rest,
      w_log (snd (load_data (demo_answer "iv.csv" (Ok demo_table))
                            demo_react (demo_world (Some text_table) [])))
      = [Asked _ AskOpenFilename; Asked _ (ReadCsv "iv.csv");
         Asked _ (Len demo_table)]
        ++ rest
      /\ Forall is_library_call rest.
Proof.
  do 3 (split; [reflexivity|]).
  exact (X12_read_file_replaces_data
           _ _ _ (demo_answer "iv.csv" (Ok demo_table)) demo_react
           (demo_world (Some text_table) []) "iv.csv" demo_table
           eq_refl eq_refl eq_refl).
Defined.

Lemma X13_column_conversion_error_escapes_witness :
  w_df (demo_world (Some text_table) []) = Some text_table
  /\ demo_answer "" (Ok text_table) _ [] (Iloc text_table 0)
     = Ok [None; Some 1%float]
  /\ demo_answer "" (Ok text_table) _ [Asked _ (Iloc text_table 0)]
                 (ToNumpy [None; Some 1%float])
     = Raise ValueError
  /\ run_fit (demo_answer "" (Ok text_table)) demo_react degenerate_fit
             exp_ref demo_fmt (demo_world (Some text_table) [])
     = (Raise ValueError,
        {| w_df := Some text_table; w_store := [];
           w_log := [Asked _ (Iloc text_table 0);
                     Asked _ (ToNumpy [None; Some 1%float])] |}).
Proof.
  do 3 (split; [reflexivity|]).
  exact (X13_column_conversion_error_escapes
           _ _ _ (demo_answer "" (Ok text_table)) demo_react degenerate_fit
           exp_ref demo_fmt (demo_world (Some text_table) []) text_table
           [None; Some 1%float] ValueError eq_refl eq_refl eq_refl).
Defined.

Lemma X14_run_fit_fits_converted_columns_witness :
  exists V J w1,
    run_fit (float_answer 3) float_react degenerate_fit exp_ref demo_fmt
            {| w_df := Some [0; 1]; w_store := demo_store; w_log := [] |}
    = fit_and_plot (float_answer 3) float_react degenerate_fit exp_ref
                   demo_fmt "bdr" V J w1
    /\ V = 0
    /\ J = 1
    /\ preserves demo_store (w_store w1)
    /\ w_df w1 = Some [0; 1]
    /\ w_log w1 = [Asked _ (Iloc [0; 1] 0); Asked _ (ToNumpy 0);
                   Asked _ (Iloc [0; 1] 1); Asked _ (ToNumpy 1);
                   Asked _ ModelVarGet].
Proof.
  exact (X14_run_fit_fits_converted_columns
           _ _ _ (float_answer 3) float_react degenerate_fit exp_ref demo_fmt
           {| w_df := Some [0; 1]; w_store := demo_store; w_log := [] |}
           [0; 1] 0 1 (View 0) (View 1) "bdr"
           eq_refl eq_refl eq_refl eq_refl eq_refl eq_refl).
Defined.

End ApplicationWitnesses.
